(** * Minecraft Server integration: the version 1 -> 2 identifier migration

    A shallow embedding of
    [homeassistant/components/minecraft_server/__init__.py]:
    [async_migrate_entry], [_async_migrate_device_identifiers] and
    [_migrate_entity_unique_id], together with the registries of the host
    they call into, and the properties of the migration; then
    [async_setup_entry] and [async_unload_entry] on [hass.data], the calls
    into the host being recorded and answered by parameters.

    Conventions of the embedding:
    - a Python [str] is the [string] of its UTF-8 bytes. Splitting on '-'
      and replacing ' ' by '_' act on these bytes as they act on the text.
      [str.lower] is modelled on ASCII text only (A..Z to a..z, every other
      byte unchanged): a statement that gives the lowercased text assumes
      the token ASCII ([PyStr.isascii]);
    - a Python [set] is a [gset], a [dict] is a [gmap] or, where the order
      of the records matters (the registries are insertion-ordered dicts
      that the code iterates), a list of records carrying their key;
    - the two arguments [hass] and [config_entry] are mutable objects: the
      code runs in a state-and-exception monad whose state holds both, and
      an exception leaves the state as it was when it was raised;
    - [assert] statements are enabled (the interpreter's default);
    - [_LOGGER.debug] calls have no effect on the records and are left out;
      of the one in [async_setup_entry] the two dict reads in its arguments,
      which can raise, are kept. *)

From Stdlib Require Import Ascii.
From stdpp Require Import base strings gmap list.

Local Open Scope Z_scope.

(** ** Python string operations used by the migration *)

Module PyStr.

(** [c.lower()] for one ASCII character. *)
Definition lower_char (c : ascii) : ascii :=
  let n := Ascii.N_of_ascii c in
  if ((65 <=? n) && (n <=? 90))%N then Ascii.ascii_of_N (n + 32) else c.

(** [s.lower()] for ASCII [s]; the bytes of other characters are left as
    they are, where Python lowercases the non-ASCII letters too. *)
Fixpoint lower (s : string) : string :=
  match s with
  | EmptyString => EmptyString
  | String c s' => String (lower_char c) (lower s')
  end.

(** [s.replace(old, new)] for one-character [old] and [new]. *)
Fixpoint replace (old new : ascii) (s : string) : string :=
  match s with
  | EmptyString => EmptyString
  | String c s' =>
      String (if Ascii.eqb c old then new else c) (replace old new s')
  end.

(** [s.split(sep)] for a one-character separator: the pieces between the
    occurrences of [sep], in order; never the empty list. *)
Fixpoint split (sep : ascii) (s : string) : list string :=
  match s with
  | EmptyString => [EmptyString]
  | String c s' =>
      if Ascii.eqb c sep then EmptyString :: split sep s'
      else match split sep s' with
           | [] => [String c EmptyString]
           | piece :: pieces => String c piece :: pieces
           end
  end.

(** [s.isascii()] *)
Fixpoint isascii (s : string) : bool :=
  match s with
  | EmptyString => true
  | String c s' => (Ascii.N_of_ascii c <? 128)%N && isascii s'
  end.

End PyStr.

(** ** Data model: the records of the host that the migration touches *)

(** [homeassistant.config_entries.ConfigEntry], with the fields that the
    config-entry store exposes: [version], [unique_id], [entry_id], [data]. *)
Module ConfigEntry.
Record t : Type := mk {
  entry_id : string;
  unique_id : option string;      (* str | None *)
  version : Z;
  data : gmap string string
}.
End ConfigEntry.

(** [device_registry.DeviceEntry]: [identifiers] is a set of pairs
    [(domain_tag, value)], [config_entries] the ids of the entries the
    device belongs to. *)
Module DeviceEntry.
Record t : Type := mk {
  id : string;
  config_entries : gset string;
  identifiers : gset (string * string)
}.

Definition with_identifiers (new_identifiers : gset (string * string))
    (d : t) : t :=
  mk (id d) (config_entries d) new_identifiers.
End DeviceEntry.

(** [entity_registry.RegistryEntry]: [config_entry_id] is the foreign key
    to the config entry that owns the entity. *)
Module RegistryEntry.
Record t : Type := mk {
  entity_id : string;
  unique_id : string;
  config_entry_id : string
}.

Definition with_unique_id (new_unique_id : string) (e : t) : t :=
  mk (entity_id e) new_unique_id (config_entry_id e).
End RegistryEntry.

(** The part of [hass] behind the three collaborators: the config-entry
    store (last record written per entry id), the device registry and the
    entity registry, both in registry order. *)
Record HomeAssistant : Type := mkHass {
  config_entries : gmap string ConfigEntry.t;
  device_registry : list DeviceEntry.t;
  entity_registry : list RegistryEntry.t
}.

(** The two mutable arguments of [async_migrate_entry]. *)
Record State : Type := mkState {
  hass : HomeAssistant;
  config_entry : ConfigEntry.t
}.

(** ** Exceptions and the monads the code runs in *)

Inductive exn : Type := AssertionError | IndexError.

Inductive outcome (A : Type) : Type :=
| Returned (a : A)
| Raised (e : exn).
Arguments Returned {A} a.
Arguments Raised {A} e.

#[global] Instance outcome_ret : MRet outcome := @Returned.
#[global] Instance outcome_bind : MBind outcome := λ A B f m,
  match m with
  | Returned a => f a
  | Raised e => Raised e
  end.

(** Stateful code: a computation maps the state to an outcome and the
    state it leaves behind. *)
Definition M (A : Type) : Type := State → outcome A * State.

#[global] Instance M_ret : MRet M := λ A a st, (Returned a, st).
#[global] Instance M_bind : MBind M := λ A B f m st,
  match m st with
  | (Returned a, st') => f a st'
  | (Raised e, st') => (Raised e, st')
  end.

Definition raise {A : Type} (e : exn) : M A := λ st, (Raised e, st).
Definition gets {A : Type} (f : State → A) : M A := λ st, (Returned (f st), st).
Definition modify (f : State → State) : M unit := λ st, (Returned tt, f st).

(** A pure computation that may raise, run inside stateful code. *)
Definition lift {A : Type} (o : outcome A) : M A := λ st, (o, st).

(** [l[i]] on a list: [IndexError] when out of range. *)
Definition getitem {A : Type} (l : list A) (i : nat) : outcome A :=
  match l !! i with
  | Some x => Returned x
  | None => Raised IndexError
  end.

(** Truth value of a [str | None]: [None] and the empty string are false. *)
Definition truthy (v : option string) : bool :=
  match v with
  | None => false
  | Some EmptyString => false
  | Some (String _ _) => true
  end.

(** [assert cond] *)
Definition py_assert (cond : bool) : M unit :=
  if cond then mret tt else raise AssertionError.

(** Field assignments on the [config_entry] object. *)
Definition set_unique_id (v : option string) : M unit :=
  modify (λ st,
    let c := config_entry st in
    mkState (hass st)
      (ConfigEntry.mk (ConfigEntry.entry_id c) v (ConfigEntry.version c)
         (ConfigEntry.data c))).

Definition set_version (v : Z) : M unit :=
  modify (λ st,
    let c := config_entry st in
    mkState (hass st)
      (ConfigEntry.mk (ConfigEntry.entry_id c) (ConfigEntry.unique_id c) v
         (ConfigEntry.data c))).

(** ** Constants of [const.py] *)

(** Modelled from the spec: [KEY_MOTD], imported from [const.py], which is
    not among the sources; section 8 takes the MOTD key to be [motd]. *)
Definition KEY_MOTD : string := "motd".

(** Modelled from the spec: [KEY_LATENCY], the canonical latency key,
    imported from [const.py]; the comment on the rename in
    [_migrate_entity_unique_id] gives its value, [latency]. *)
Definition KEY_LATENCY : string := "latency".

(** ** The host's collaborators and the migration *)

Section Migration.

(** [DOMAIN] of [const.py]: the integration's tag in device identifiers.
    Its value plays no role in the migration. *)
Variable DOMAIN : string.

(** *** Config-entry store *)

(** Modelled from the spec: [hass.config_entries.async_update_entry], of
    [config_entries.py], not among the sources. It writes the fields of
    the entry back to the store (section 6). *)
Definition async_update_entry : M unit :=
  modify (λ st,
    let c := config_entry st in
    let h := hass st in
    mkState
      (mkHass (<[ConfigEntry.entry_id c := c]> (config_entries h))
         (device_registry h) (entity_registry h))
      c).

(** *** Device registry *)

(** Modelled from the spec: [dr.async_entries_for_config_entry], of
    [helpers/device_registry.py], not among the sources: the devices
    associated with the entry, in registry order (section 6,
    [devices_for_entry]). *)
Definition async_entries_for_config_entry
    (registry : list DeviceEntry.t) (config_entry_id : string)
    : list DeviceEntry.t :=
  filter (λ d, config_entry_id ∈ DeviceEntry.config_entries d) registry.

(** Modelled from the spec: [device_registry.async_update_device], of
    [helpers/device_registry.py], not among the sources: the record stored
    under [device_id] gets [new_identifiers] as its identifier set
    (section 6, [update_device]). *)
Definition async_update_device (device_id : string)
    (new_identifiers : gset (string * string)) : M unit :=
  modify (λ st,
    let h := hass st in
    mkState
      (mkHass (config_entries h)
         ((λ d, if decide (DeviceEntry.id d = device_id)
                then DeviceEntry.with_identifiers new_identifiers d
                else d) <$> device_registry h)
         (entity_registry h))
      (config_entry st)).

(** The inner [for identifier in device_entry.identifiers] loop; its
    result is [device_entry_found]. *)
Fixpoint scan_identifiers (device_entry : DeviceEntry.t)
    (old_unique_id : option string) (ids : list (string * string))
    : M bool :=
  match ids with
  | [] => mret false
  | identifier :: ids' =>
      if decide (Some (identifier.2) = old_unique_id) then
        (* Device found in registry. Update identifiers. *)
        config_entry_id ← gets (λ st, ConfigEntry.entry_id (config_entry st));
        let new_identifiers := {[ (DOMAIN, config_entry_id) ]} in
        async_update_device (DeviceEntry.id device_entry) new_identifiers;;
        (* Device entry found. Leave inner for loop. *)
        mret true
      else scan_identifiers device_entry old_unique_id ids'
  end.

(** The outer [for device_entry in ...] loop. *)
Fixpoint scan_devices (old_unique_id : option string)
    (device_entries : list DeviceEntry.t) : M unit :=
  match device_entries with
  | [] => mret tt
  | device_entry :: device_entries' =>
      device_entry_found ←
        scan_identifiers device_entry old_unique_id
          (elements (DeviceEntry.identifiers device_entry));
      (* Leave outer for loop if device entry is already found. *)
      if device_entry_found : bool then mret tt
      else scan_devices old_unique_id device_entries'
  end.

Definition _async_migrate_device_identifiers
    (old_unique_id : option string) : M unit :=
  device_registry ← gets (λ st, device_registry (hass st));
  config_entry_id ← gets (λ st, ConfigEntry.entry_id (config_entry st));
  scan_devices old_unique_id
    (async_entries_for_config_entry device_registry config_entry_id).

(** *** Entity registry *)

Definition _migrate_entity_unique_id (entity_entry : RegistryEntry.t)
    : outcome (gmap string string) :=
  let unique_id_pieces :=
    PyStr.split "-" (RegistryEntry.unique_id entity_entry) in
  entity_type ← getitem unique_id_pieces 2;
  (* Entity type names were used instead of keys in version 1. *)
  let new_entity_type := PyStr.lower entity_type in
  let new_entity_type := PyStr.replace " " "_" new_entity_type in
  (* Special case 'MOTD': Name and key differs. *)
  let new_entity_type :=
    if decide (new_entity_type = "world_message") then KEY_MOTD
    else new_entity_type in
  (* Special case 'latency_time': Renamed to 'latency'. *)
  let new_entity_type :=
    if decide (new_entity_type = "latency_time") then KEY_LATENCY
    else new_entity_type in
  let new_unique_id :=
    RegistryEntry.config_entry_id entity_entry +:+ "-" +:+ new_entity_type in
  mret {[ "new_unique_id" := new_unique_id ]}.

(** Modelled from the spec: the write of one entity by the batch
    migration below, of [helpers/entity_registry.py], not among the
    sources: the entity at position [i] of the registry gets the
    [new_unique_id] of [updates]. *)
Definition async_update_entity (i : nat) (updates : gmap string string)
    : M unit :=
  modify (λ st,
    let h := hass st in
    let registry := entity_registry h in
    mkState
      (mkHass (config_entries h) (device_registry h)
         (match updates !! "new_unique_id", registry !! i with
          | Some new_unique_id, Some e =>
              <[i := RegistryEntry.with_unique_id new_unique_id e]> registry
          | _, _ => registry
          end))
      (config_entry st)).

(** Modelled from the spec: the loop of [er.async_migrate_entries], of
    [helpers/entity_registry.py], not among the sources. Section 6: it
    applies the callback to every entity of the entry and persists the
    results; here in registry order, entity by entity, so that an exception
    of the callback leaves the entities before it updated. *)
Fixpoint migrate_entries_from (i : nat) (config_entry_id : string)
    (entry_callback : RegistryEntry.t → outcome (gmap string string))
    (entries : list RegistryEntry.t) : M unit :=
  match entries with
  | [] => mret tt
  | entry :: entries' =>
      (if decide (RegistryEntry.config_entry_id entry = config_entry_id)
       then updates ← lift (entry_callback entry);
            async_update_entity i updates
       else mret tt);;
      migrate_entries_from (S i) config_entry_id entry_callback entries'
  end.

(** Modelled from the spec: [er.async_migrate_entries], the batch
    migration of the entity registry (section 6, [migrate_entities]), over
    the entities the registry holds when it is called. *)
Definition async_migrate_entries (config_entry_id : string)
    (entry_callback : RegistryEntry.t → outcome (gmap string string))
    : M unit :=
  entries ← gets (λ st, entity_registry (hass st));
  migrate_entries_from 0 config_entry_id entry_callback entries.

(** *** The migration hook *)

Definition async_migrate_entry : M bool :=
  version ← gets (λ st, ConfigEntry.version (config_entry st));
  (* 1 --> 2: Use config entry ID as base for unique IDs. *)
  (if decide (version = 1) then
     old_unique_id ← gets (λ st, ConfigEntry.unique_id (config_entry st));
     py_assert (truthy old_unique_id);;
     config_entry_id ← gets (λ st, ConfigEntry.entry_id (config_entry st));
     (* Migrate config entry. *)
     set_unique_id None;;
     set_version 2;;
     async_update_entry;;
     (* Migrate device. *)
     _async_migrate_device_identifiers old_unique_id;;
     (* Migrate entities. *)
     async_migrate_entries config_entry_id _migrate_entity_unique_id
   else mret tt);;
  mret true.

End Migration.

(** ** The decoding as the specification words it *)

(** The rename table of the specification: a token that it does not list
    passes through. *)
Definition rename_table : gmap string string :=
  {[ "world_message" := KEY_MOTD; "latency_time" := KEY_LATENCY ]}.

(** Normalise the type token (lowercase, spaces to underscores), then look
    it up in the rename table. *)
Definition normalized_type (token : string) : string :=
  let key := PyStr.replace " " "_" (PyStr.lower token) in
  default key (rename_table !! key).

Definition spec_new_unique_id (config_entry_id token : string) : string :=
  config_entry_id +:+ "-" +:+ normalized_type token.

(** ** What the three steps compute, as functions of the state *)

(** The test of the inner loop of Step B, and a device on which it
    succeeds. *)
Definition is_legacy (old_unique_id : option string)
    (identifier : string * string) : Prop :=
  Some (identifier.2) = old_unique_id.

Definition has_legacy_identifier (old_unique_id : option string)
    (d : DeviceEntry.t) : Prop :=
  Exists (is_legacy old_unique_id) (elements (DeviceEntry.identifiers d)).

#[global] Instance is_legacy_dec old i : Decision (is_legacy old i).
Proof. unfold is_legacy. apply _. Defined.

#[global] Instance has_legacy_identifier_dec old d :
  Decision (has_legacy_identifier old d).
Proof. unfold has_legacy_identifier. apply _. Defined.

(** The first device of the entry that carries the legacy identifier. *)
Definition first_legacy_device (old_unique_id : option string)
    (config_entry_id : string) (registry : list DeviceEntry.t)
    : option DeviceEntry.t :=
  snd <$> list_find (has_legacy_identifier old_unique_id)
            (filter (λ d, config_entry_id ∈ DeviceEntry.config_entries d)
               registry).

(** The registry after [async_update_device]. *)
Definition update_identifiers (device_id : string)
    (new_identifiers : gset (string * string))
    (registry : list DeviceEntry.t) : list DeviceEntry.t :=
  (λ d, if decide (DeviceEntry.id d = device_id)
        then DeviceEntry.with_identifiers new_identifiers d
        else d) <$> registry.

Definition with_device_registry (registry : list DeviceEntry.t)
    (st : State) : State :=
  mkState
    (mkHass (config_entries (hass st)) registry (entity_registry (hass st)))
    (config_entry st).

Definition with_entity_registry (registry : list RegistryEntry.t)
    (st : State) : State :=
  mkState
    (mkHass (config_entries (hass st)) (device_registry (hass st)) registry)
    (config_entry st).

(** One entity of the batch of Step C, decoded. *)
Definition migrated_entity (e : RegistryEntry.t) : outcome RegistryEntry.t :=
  match PyStr.split "-" (RegistryEntry.unique_id e) !! 2%nat with
  | Some token =>
      Returned
        (RegistryEntry.with_unique_id
           (spec_new_unique_id (RegistryEntry.config_entry_id e) token) e)
  | None => Raised IndexError
  end.

(** The batch over a stretch of the registry: its outcome and the stretch
    it leaves behind. *)
Fixpoint migrated_entities (config_entry_id : string)
    (entries : list RegistryEntry.t) : outcome unit * list RegistryEntry.t :=
  match entries with
  | [] => (Returned tt, [])
  | e :: entries' =>
      if decide (RegistryEntry.config_entry_id e = config_entry_id) then
        match migrated_entity e with
        | Returned e' =>
            let '(o, rest) := migrated_entities config_entry_id entries' in
            (o, e' :: rest)
        | Raised x => (Raised x, e :: entries')
        end
      else
        let '(o, rest) := migrated_entities config_entry_id entries' in
        (o, e :: rest)
  end.

(** Step A on the entry object. *)
Definition migrated_config_entry (c : ConfigEntry.t) : ConfigEntry.t :=
  ConfigEntry.mk (ConfigEntry.entry_id c) None 2 (ConfigEntry.data c).

(** The state after Step A: the entry object updated and written back. *)
Definition step_a_state (st : State) : State :=
  let c := migrated_config_entry (config_entry st) in
  mkState
    (mkHass (<[ConfigEntry.entry_id c := c]> (config_entries (hass st)))
       (device_registry (hass st)) (entity_registry (hass st)))
    c.

Section StatesAfter.

Variable DOMAIN : string.

(** The state after the update of the device stored under [device_id]. *)
Definition migrated_device_state (device_id : string) (st : State)
    : State :=
  with_device_registry
    (update_identifiers device_id
       {[ (DOMAIN, ConfigEntry.entry_id (config_entry st)) ]}
       (device_registry (hass st)))
    st.

(** The state after Step B. *)
Definition step_b_state (old_unique_id : option string) (st : State)
    : State :=
  match first_legacy_device old_unique_id
          (ConfigEntry.entry_id (config_entry st))
          (device_registry (hass st)) with
  | Some d => migrated_device_state (DeviceEntry.id d) st
  | None => st
  end.

End StatesAfter.

(** ** Dashes in a unique id *)

Fixpoint dash_free (s : string) : Prop :=
  match s with
  | EmptyString => True
  | String c s' => c ≠ "-"%char ∧ dash_free s'
  end.

(** ** Sample states *)

Definition sample_domain : string := "minecraft_server".

(** The scenario of the specification: entry E1 at version 1 with legacy
    unique id abc123, one device, one entity. *)
Definition end_to_end_state (DOMAIN : string) : State :=
  mkState
    (mkHass ∅
       [DeviceEntry.mk "device1" {[ "E1" ]} {[ (DOMAIN, "abc123") ]}]
       [RegistryEntry.mk "sensor.protocol_version"
          "abc123-25565-Protocol Version" "E1"])
    (ConfigEntry.mk "E1" (Some "abc123") 1 ∅).

(** The same entry, device and entity with another legacy unique id on the
    entry. *)
Definition legacy_sample (unique_id : option string) : State :=
  mkState
    (mkHass ∅
       [DeviceEntry.mk "device1" {[ "E1" ]} {[ (sample_domain, "abc123") ]}]
       [RegistryEntry.mk "sensor.protocol_version"
          "abc123-25565-Protocol Version" "E1"])
    (ConfigEntry.mk "E1" unique_id 1 ∅).

(** An entry that is already at version 2, with its registries. *)
Definition migrated_sample : State :=
  mkState
    (mkHass ∅
       [DeviceEntry.mk "device1" {[ "E1" ]} {[ (sample_domain, "E1") ]}]
       [RegistryEntry.mk "sensor.latency" "E1-latency" "E1"])
    (ConfigEntry.mk "E1" None 2 ∅).

(** Two devices of entry E1 after Step A; the second one carries the
    legacy id. *)
Definition two_devices_sample : State :=
  mkState
    (mkHass ∅
       [DeviceEntry.mk "device1" {[ "E1" ]} {[ (sample_domain, "other") ]};
        DeviceEntry.mk "device2" {[ "E1" ]}
          {[ (sample_domain, "abc123"); ("mac", "aa:bb") ]}]
       [])
    (ConfigEntry.mk "E1" None 2 ∅).


(** ** Further notions for the properties of the decoding and of Step C *)

(** A machine key: no dash, no space, no upper-case ASCII letter. *)
Fixpoint key_shaped (s : string) : Prop :=
  match s with
  | EmptyString => True
  | String c s' =>
      (c ≠ "-"%char ∧ c ≠ " "%char ∧ PyStr.lower_char c = c) ∧ key_shaped s'
  end.

(** The entity the batch of Step C leaves in the place of [e]: decoded when
    the entry owns it and its id has an element at index 2. *)
Definition migrate_owned (config_entry_id : string) (e : RegistryEntry.t)
    : RegistryEntry.t :=
  if decide (RegistryEntry.config_entry_id e = config_entry_id) then
    match migrated_entity e with
    | Returned e' => e'
    | Raised _ => e
    end
  else e.

(** The entry owns [e] and [e]'s legacy unique id has no element at
    index 2. *)
Definition malformed_for (config_entry_id : string) (e : RegistryEntry.t)
    : Prop :=
  RegistryEntry.config_entry_id e = config_entry_id
  ∧ (length (PyStr.split "-" (RegistryEntry.unique_id e)) < 3)%nat.

#[global] Instance malformed_for_dec config_entry_id e :
  Decision (malformed_for config_entry_id e).
Proof. unfold malformed_for. apply _. Defined.

(** A version-1 entry with three entities, the second of which has a
    two-segment unique id. *)
Definition partial_sample : State :=
  mkState
    (mkHass ∅ []
       [RegistryEntry.mk "sensor.latency" "abc123-25565-Latency Time" "E1";
        RegistryEntry.mk "sensor.players" "abc123-Players Online" "E1";
        RegistryEntry.mk "sensor.motd" "abc123-25565-World Message" "E1"])
    (ConfigEntry.mk "E1" (Some "abc123") 1 ∅).

(** Entry E1 at version 1 beside the records of another entry, E2: a
    device and an entity that carry the same legacy texts. *)
Definition shared_registry_sample : State :=
  mkState
    (mkHass ∅
       [DeviceEntry.mk "device2" {[ "E2" ]} {[ (sample_domain, "abc123") ]};
        DeviceEntry.mk "device1" {[ "E1" ]} {[ (sample_domain, "abc123") ]}]
       [RegistryEntry.mk "sensor.latency" "abc123-25565-Latency Time" "E1";
        RegistryEntry.mk "sensor.other" "abc123-25565-Latency Time" "E2"])
    (ConfigEntry.mk "E1" (Some "abc123") 1 ∅).

(** ** Setup and unload of a config entry *)

(** [Platform], of [homeassistant.const]: the two members this file
    names. *)
Inductive Platform : Type := BINARY_SENSOR | SENSOR.

Definition PLATFORMS : list Platform := [BINARY_SENSOR; SENSOR].

(** What [async_setup_entry] and [async_unload_entry] use and this file
    does not define: the coordinator class of [coordinator.py], the keys
    [CONF_HOST] and [CONF_NAME] of [homeassistant.const], and three calls
    into the host, each given by what it answers: [None] or [inr] when it
    completes, an exception otherwise. *)
Class Collaborators : Type := {
  Coordinator : Type;
  HostError : Type;
  CONF_HOST : string;
  CONF_NAME : string;
  MinecraftServerCoordinator : string → gmap string string → Coordinator;
  async_config_entry_first_refresh : Coordinator → option HostError;
  async_forward_entry_setups :
    ConfigEntry.t → list Platform → option HostError;
  async_unload_platforms : ConfigEntry.t → list Platform → HostError + bool
}.

Inductive result (E A : Type) : Type :=
| Done (a : A)
| Failed (e : E).
Arguments Done {E A} a.
Arguments Failed {E A} e.

Section Lifecycle.

Context `{Collaborators}.
Variable DOMAIN : string.

(** The exceptions of setup and unload: a [KeyError] of a dict access of
    this file, or an exception of a call into the host, passed on. *)
Inductive lifecycle_exn : Type :=
| KeyError (key : string)
| Propagated (e : HostError).

(** The calls into the host, in the order they are made. *)
Inductive host_call : Type :=
| first_refresh_call (coordinator : Coordinator)
| forward_entry_setups_call (entry : ConfigEntry.t) (platforms : list Platform)
| unload_platforms_call (entry : ConfigEntry.t) (platforms : list Platform).

(** [hass.data], a dict of dicts: per domain, the coordinators by config
    entry id; and the calls made into the host so far. *)
Record Runtime : Type := mkRuntime {
  hass_data : gmap string (gmap string Coordinator);
  calls : list host_call
}.

Definition L (A : Type) : Type := Runtime → result lifecycle_exn A * Runtime.

#[global] Instance L_ret : MRet L := λ A a rt, (Done a, rt).
#[global] Instance L_bind : MBind L := λ A B f m rt,
  match m rt with
  | (Done a, rt') => f a rt'
  | (Failed e, rt') => (Failed e, rt')
  end.

Definition throw {A : Type} (e : lifecycle_exn) : L A := λ rt, (Failed e, rt).

(** [d[key]] on a dict. *)
Definition dict_getitem {V : Type} (d : gmap string V) (key : string) : L V :=
  match d !! key with
  | Some v => mret v
  | None => throw (KeyError key)
  end.

(** A call into the host: recorded, then answered. *)
Definition host {A : Type} (call : host_call) (answer : HostError + A) : L A :=
  λ rt,
    let rt' := mkRuntime (hass_data rt) (calls rt ++ [call]) in
    match answer with
    | inr a => (Done a, rt')
    | inl e => (Failed (Propagated e), rt')
    end.

Definition completes (answer : option HostError) : HostError + unit :=
  match answer with
  | None => inr tt
  | Some e => inl e
  end.

(** [hass.data.setdefault(DOMAIN, {})]: the dict stored under [DOMAIN],
    an empty one being stored first when there is none. The result is that
    stored dict itself, which [domain_data_setitem] writes to. *)
Definition hass_data_setdefault : L unit :=
  λ rt,
    (Done tt,
     match hass_data rt !! DOMAIN with
     | Some _ => rt
     | None => mkRuntime (<[DOMAIN := ∅]> (hass_data rt)) (calls rt)
     end).

(** [domain_data[key] = value], on the dict stored under [DOMAIN]. *)
Definition domain_data_setitem (key : string) (value : Coordinator) : L unit :=
  λ rt,
    (Done tt,
     mkRuntime (alter (λ domain_data, <[key := value]> domain_data) DOMAIN
                  (hass_data rt))
       (calls rt)).

(** [hass.data[DOMAIN].pop(key)] *)
Definition domain_data_pop (key : string) : L Coordinator :=
  λ rt,
    match hass_data rt !! DOMAIN with
    | None => (Failed (KeyError DOMAIN), rt)
    | Some domain_data =>
        match domain_data !! key with
        | None => (Failed (KeyError key), rt)
        | Some coordinator =>
            (Done coordinator,
             mkRuntime (<[DOMAIN := delete key domain_data]> (hass_data rt))
               (calls rt))
        end
    end.

Definition async_setup_entry (entry : ConfigEntry.t) : L bool :=
  (* The arguments of the _LOGGER.debug call. *)
  _ ← dict_getitem (ConfigEntry.data entry) CONF_NAME;
  _ ← dict_getitem (ConfigEntry.data entry) CONF_HOST;
  (* Create coordinator instance. *)
  let config_entry_id := ConfigEntry.entry_id entry in
  let coordinator :=
    MinecraftServerCoordinator config_entry_id (ConfigEntry.data entry) in
  host (first_refresh_call coordinator)
    (completes (async_config_entry_first_refresh coordinator));;
  (* Store coordinator instance. *)
  hass_data_setdefault;;
  domain_data_setitem config_entry_id coordinator;;
  (* Set up platforms. *)
  host (forward_entry_setups_call entry PLATFORMS)
    (completes (async_forward_entry_setups entry PLATFORMS));;
  mret true.

Definition async_unload_entry (config_entry : ConfigEntry.t) : L bool :=
  let config_entry_id := ConfigEntry.entry_id config_entry in
  (* Unload platforms. *)
  unload_ok ←
    host (unload_platforms_call config_entry PLATFORMS)
      (async_unload_platforms config_entry PLATFORMS);
  (* Clean up. *)
  domain_data_pop config_entry_id;;
  mret unload_ok.

End Lifecycle.

(** Collaborators for the sample runs: the coordinator is the pair it is
    built from, the host answers as given. *)
Definition sample_collaborators (refresh forward : option string)
    (unload : string + bool) : Collaborators :=
  {| Coordinator := string * gmap string string;
     HostError := string;
     CONF_HOST := "host";
     CONF_NAME := "name";
     MinecraftServerCoordinator := pair;
     async_config_entry_first_refresh := λ _, refresh;
     async_forward_entry_setups := λ _ _, forward;
     async_unload_platforms := λ _ _, unload |}.

Definition server_entry : ConfigEntry.t :=
  ConfigEntry.mk "E1" None 2 {[ "name" := "My Server"; "host" := "mc.local" ]}.

(** [hass.data] empty, and with the coordinator of [server_entry] stored. *)
Definition empty_runtime (C : Collaborators) : @Runtime C :=
  @mkRuntime C ∅ [].

Definition stored_runtime (refresh forward : option string)
    (unload : string + bool)
    : @Runtime (sample_collaborators refresh forward unload) :=
  @mkRuntime (sample_collaborators refresh forward unload)
    {[ sample_domain :=
         {[ "E1" := ("E1", ConfigEntry.data server_entry) ]} ]}
    [].

(** * Properties *)

(** ** The string operations on the texts of the specification *)

Example lower_Protocol_Version :
  PyStr.lower "Protocol Version" = "protocol version".
Proof. reflexivity. Qed.

Example split_legacy_id :
  PyStr.split "-" "abc123-25565-Protocol Version"
  = ["abc123"; "25565"; "Protocol Version"].
Proof. reflexivity. Qed.

Example split_no_separator : PyStr.split "-" "abc" = ["abc"].
Proof. reflexivity. Qed.

Example split_trailing_separator : PyStr.split "-" "a--" = ["a"; ""; ""].
Proof. reflexivity. Qed.

Example normalized_Protocol_Version :
  normalized_type "Protocol Version" = "protocol_version".
Proof. reflexivity. Qed.

Example normalized_World_Message : normalized_type "World Message" = "motd".
Proof. reflexivity. Qed.

Example normalized_Latency_Time : normalized_type "Latency Time" = "latency".
Proof. reflexivity. Qed.

(** ** The decoding of entity unique ids *)

(** The two consecutive [if]s of the code compute the table lookup. *)
Lemma renames_are_table_lookup (key : string) :
  (let t := if decide (key = "world_message") then KEY_MOTD else key in
   if decide (t = "latency_time") then KEY_LATENCY else t)
  = default key (rename_table !! key).
Proof.
  unfold rename_table. cbn zeta.
  destruct (decide (key = "world_message")) as [->|Hmotd]; [reflexivity|].
  rewrite lookup_insert_ne by congruence.
  destruct (decide (key = "latency_time")) as [->|Hlat]; [reflexivity|].
  by rewrite lookup_singleton_ne by congruence.
Qed.

Lemma migrate_entity_unique_id_at (e : RegistryEntry.t) (token : string) :
  PyStr.split "-" (RegistryEntry.unique_id e) !! 2%nat = Some token →
  _migrate_entity_unique_id e
  = Returned
      {[ "new_unique_id" :=
           spec_new_unique_id (RegistryEntry.config_entry_id e) token ]}.
Proof.
  intros Hpiece. unfold _migrate_entity_unique_id, getitem.
  rewrite Hpiece. cbn [mbind outcome_bind mret outcome_ret].
  unfold spec_new_unique_id, normalized_type.
  by rewrite <- renames_are_table_lookup.
Qed.

Lemma migrate_entity_unique_id_short (e : RegistryEntry.t) :
  PyStr.split "-" (RegistryEntry.unique_id e) !! 2%nat = None →
  _migrate_entity_unique_id e = Raised IndexError.
Proof.
  intros Hpiece. unfold _migrate_entity_unique_id, getitem.
  by rewrite Hpiece.
Qed.

Lemma migrate_entity_unique_id_short_inv (e : RegistryEntry.t) :
  _migrate_entity_unique_id e = Raised IndexError →
  PyStr.split "-" (RegistryEntry.unique_id e) !! 2%nat = None.
Proof.
  destruct (PyStr.split "-" (RegistryEntry.unique_id e) !! 2%nat)
    as [token|] eqn:Hpiece; [|done].
  by rewrite (migrate_entity_unique_id_at e token Hpiece).
Qed.

(** The callback raises nothing but [IndexError]. *)
Lemma migrate_entity_unique_id_cases (e : RegistryEntry.t) :
  (∃ token,
      PyStr.split "-" (RegistryEntry.unique_id e) !! 2%nat = Some token ∧
      _migrate_entity_unique_id e
      = Returned
          {[ "new_unique_id" :=
               spec_new_unique_id (RegistryEntry.config_entry_id e) token ]})
  ∨ _migrate_entity_unique_id e = Raised IndexError.
Proof.
  destruct (PyStr.split "-" (RegistryEntry.unique_id e) !! 2%nat)
    as [token|] eqn:Hpiece.
  - left. exists token. split; [done|]. by apply migrate_entity_unique_id_at.
  - right. by apply migrate_entity_unique_id_short.
Qed.

(** ** Running stateful code *)

Lemma run_bind {A B : Type} (m : M A) (f : A → M B) (st : State) :
  (m ≫= f) st
  = match m st with
    | (Returned a, st') => f a st'
    | (Raised e, st') => (Raised e, st')
    end.
Proof. reflexivity. Qed.

(** Runs the reads of the state at the head of a computation. *)
Ltac run_gets := repeat (rewrite run_bind; cbn [gets]).

Lemma with_device_registry_id (st : State) :
  with_device_registry (device_registry (hass st)) st = st.
Proof. by destruct st as [[] ?]. Qed.

Lemma with_entity_registry_id (st : State) :
  with_entity_registry (entity_registry (hass st)) st = st.
Proof. by destruct st as [[] ?]. Qed.

(** ** The version gate and the precondition check *)

Lemma migrate_entry_other_version (DOMAIN : string) (st : State) :
  ConfigEntry.version (config_entry st) ≠ 1 →
  async_migrate_entry DOMAIN st = (Returned true, st).
Proof.
  intros Hversion. unfold async_migrate_entry.
  rewrite run_bind. cbn [gets].
  destruct (decide (ConfigEntry.version (config_entry st) = 1)); done.
Qed.

Lemma migrate_entry_assert_fails (DOMAIN : string) (st : State) :
  ConfigEntry.version (config_entry st) = 1 →
  truthy (ConfigEntry.unique_id (config_entry st)) = false →
  async_migrate_entry DOMAIN st = (Raised AssertionError, st).
Proof.
  intros Hversion Hfalsy. unfold async_migrate_entry.
  rewrite run_bind. cbn [gets].
  destruct (decide (ConfigEntry.version (config_entry st) = 1)); [|done].
  rewrite !run_bind. cbn [gets]. unfold py_assert.
  by rewrite Hfalsy.
Qed.

(** ** Step B: the device scan finds the first legacy device *)

Lemma has_legacy_identifier_elem_of old d :
  has_legacy_identifier old d ↔
  ∃ identifier, identifier ∈ DeviceEntry.identifiers d ∧
                Some (identifier.2) = old.
Proof.
  unfold has_legacy_identifier. rewrite Exists_exists.
  split; intros (i & Hi & Hold); exists i; (split; [|exact Hold]).
  - by apply elem_of_elements.
  - by apply elem_of_elements.
Qed.

Section DeviceScan.

Variable DOMAIN : string.

Lemma scan_identifiers_run (d : DeviceEntry.t) (old : option string)
    (ids : list (string * string)) (st : State) :
  scan_identifiers DOMAIN d old ids st
  = if decide (Exists (is_legacy old) ids)
    then (Returned true, migrated_device_state DOMAIN (DeviceEntry.id d) st)
    else (Returned false, st).
Proof.
  induction ids as [|i ids IH]; cbn [scan_identifiers].
  - destruct (decide (Exists (is_legacy old) [])) as [H|H]; [|done].
    by apply Exists_nil in H.
  - destruct (decide (Some (i.2) = old)) as [Hi|Hi].
    + destruct (decide (Exists (is_legacy old) (i :: ids))) as [H|H].
      * reflexivity.
      * exfalso. apply H. by left.
    + rewrite IH.
      destruct (decide (Exists (is_legacy old) ids)) as [H|H];
        destruct (decide (Exists (is_legacy old) (i :: ids))) as [H'|H'];
        try reflexivity.
      * exfalso. apply H'. by right.
      * exfalso. apply Exists_cons in H' as [?|?]; done.
Qed.

Lemma scan_devices_run (old : option string)
    (devices : list DeviceEntry.t) (st : State) :
  scan_devices DOMAIN old devices st
  = (Returned tt,
     match snd <$> list_find (has_legacy_identifier old) devices with
     | Some d => migrated_device_state DOMAIN (DeviceEntry.id d) st
     | None => st
     end).
Proof.
  induction devices as [|d devices IH]; cbn [scan_devices].
  - reflexivity.
  - rewrite run_bind, scan_identifiers_run. cbn [list_find].
    fold (has_legacy_identifier old d).
    destruct (decide (has_legacy_identifier old d)) as [Hd|Hd].
    + reflexivity.
    + etrans; [exact IH|].
      destruct (list_find (has_legacy_identifier old) devices)
        as [[j d']|]; reflexivity.
Qed.

Lemma migrate_device_identifiers_run (old : option string) (st : State) :
  _async_migrate_device_identifiers DOMAIN old st
  = (Returned tt, step_b_state DOMAIN old st).
Proof.
  unfold _async_migrate_device_identifiers. run_gets.
  by rewrite scan_devices_run.
Qed.

Lemma step_b_state_entities old st :
  entity_registry (hass (step_b_state DOMAIN old st))
  = entity_registry (hass st).
Proof. unfold step_b_state. by destruct first_legacy_device. Qed.

Lemma step_b_state_config_entry old st :
  config_entry (step_b_state DOMAIN old st) = config_entry st.
Proof. unfold step_b_state. by destruct first_legacy_device. Qed.

Lemma step_b_state_config_entries old st :
  config_entries (hass (step_b_state DOMAIN old st))
  = config_entries (hass st).
Proof. unfold step_b_state. by destruct first_legacy_device. Qed.


End DeviceScan.

Lemma first_legacy_device_split (old : option string)
    (config_entry_id : string) (before after : list DeviceEntry.t)
    (d : DeviceEntry.t) :
  config_entry_id ∈ DeviceEntry.config_entries d →
  has_legacy_identifier old d →
  (∀ d', d' ∈ before → config_entry_id ∈ DeviceEntry.config_entries d' →
         ¬ has_legacy_identifier old d') →
  first_legacy_device old config_entry_id (before ++ d :: after) = Some d.
Proof.
  intros Hassoc Hlegacy Hbefore. unfold first_legacy_device.
  rewrite filter_app, filter_cons_True by done.
  rewrite list_find_app_r.
  - cbn [list_find]. by rewrite decide_True.
  - apply list_find_None, Forall_forall. intros d' Hd'.
    apply list_elem_of_filter in Hd' as [Hassoc' Hin]. by apply Hbefore.
Qed.

Lemma first_legacy_device_none (old : option string)
    (config_entry_id : string) (registry : list DeviceEntry.t) :
  (∀ d, d ∈ registry → config_entry_id ∈ DeviceEntry.config_entries d →
        ¬ has_legacy_identifier old d) →
  first_legacy_device old config_entry_id registry = None.
Proof.
  intros Hnone. unfold first_legacy_device.
  replace (list_find (has_legacy_identifier old) _) with
    (@None (nat * DeviceEntry.t)); [done|].
  symmetry. apply list_find_None, Forall_forall. intros d Hd.
  apply list_elem_of_filter in Hd as [Hassoc Hin]. by apply Hnone.
Qed.

(** With distinct device ids, the update by id changes one record. *)
Lemma update_identifiers_split (before after : list DeviceEntry.t)
    (d : DeviceEntry.t) (new_identifiers : gset (string * string)) :
  NoDup (DeviceEntry.id <$> before ++ d :: after) →
  update_identifiers (DeviceEntry.id d) new_identifiers (before ++ d :: after)
  = before ++ DeviceEntry.with_identifiers new_identifiers d :: after.
Proof.
  intros Hnodup. unfold update_identifiers.
  rewrite fmap_app, fmap_cons in Hnodup.
  apply NoDup_app in Hnodup as (_ & Hbefore & Hafter).
  apply NoDup_cons in Hafter as [Hafter _].
  rewrite fmap_app, fmap_cons, decide_True by done.
  f_equal; [|f_equal].
  - rewrite <- (list_fmap_id before) at 2. apply list_fmap_ext.
    intros i x Hx. rewrite decide_False; [done|].
    intros Hid. apply (Hbefore (DeviceEntry.id x)).
    + apply list_elem_of_fmap. exists x. split; [done|].
      by apply list_elem_of_lookup_2 in Hx.
    + rewrite Hid. by left.
  - rewrite <- (list_fmap_id after) at 2. apply list_fmap_ext.
    intros i x Hx. rewrite decide_False; [done|].
    intros Hid. apply Hafter. rewrite <- Hid.
    apply list_elem_of_fmap. exists x. split; [done|].
    by apply list_elem_of_lookup_2 in Hx.
Qed.

Lemma two_devices_sample_NoDup :
  NoDup (DeviceEntry.id <$> device_registry (hass two_devices_sample)).
Proof.
  cbn. apply NoDup_cons. split; [|apply NoDup_singleton].
  intros Hin. apply list_elem_of_singleton in Hin. discriminate Hin.
Qed.

(** ** Step C: the entity batch *)

Lemma async_update_entity_middle (done_ rest : list RegistryEntry.t)
    (e : RegistryEntry.t) (new_unique_id : string) (st : State) :
  entity_registry (hass st) = done_ ++ e :: rest →
  async_update_entity (length done_) {[ "new_unique_id" := new_unique_id ]} st
  = (Returned tt,
     with_entity_registry
       (done_ ++ RegistryEntry.with_unique_id new_unique_id e :: rest) st).
Proof.
  intros Hreg. unfold async_update_entity, modify, with_entity_registry.
  rewrite lookup_singleton_eq, Hreg.
  rewrite list_lookup_middle by done.
  replace (length done_) with (length done_ + 0)%nat at 1 by lia.
  by rewrite insert_app_r.
Qed.

Lemma migrate_entries_from_run (config_entry_id : string)
    (entries done_ : list RegistryEntry.t) (st : State) :
  entity_registry (hass st) = done_ ++ entries →
  migrate_entries_from (length done_) config_entry_id
    _migrate_entity_unique_id entries st
  = ((migrated_entities config_entry_id entries).1,
     with_entity_registry
       (done_ ++ (migrated_entities config_entry_id entries).2) st).
Proof.
  revert done_ st.
  induction entries as [|e entries IH]; intros done_ st Hreg;
    cbn [migrate_entries_from migrated_entities].
  - cbn. by rewrite <- Hreg, with_entity_registry_id.
  - assert (Hnext : ∀ e' st',
      entity_registry (hass st') = done_ ++ e' :: entries →
      migrate_entries_from (S (length done_)) config_entry_id
        _migrate_entity_unique_id entries st'
      = ((migrated_entities config_entry_id entries).1,
         with_entity_registry
           (done_ ++ e' :: (migrated_entities config_entry_id entries).2)
           st')).
    { intros e' st' Hreg'.
      specialize (IH (done_ ++ [e']) st').
      rewrite length_app, Nat.add_1_r in IH.
      rewrite <- !(assoc_L (++)) in IH. by apply IH. }
    rewrite run_bind.
    destruct (decide (RegistryEntry.config_entry_id e = config_entry_id))
      as [Hown|Hother].
    + rewrite run_bind. unfold lift at 1, migrated_entity.
      destruct (migrate_entity_unique_id_cases e)
        as [(token & Hpiece & Hrun)|Hrun]; rewrite Hrun.
      * rewrite Hpiece.
        rewrite (async_update_entity_middle done_ entries e _ st Hreg).
        rewrite (Hnext
          (RegistryEntry.with_unique_id
             (spec_new_unique_id (RegistryEntry.config_entry_id e) token) e)
          (with_entity_registry _ st) eq_refl).
        destruct (migrated_entities config_entry_id entries) as [o rest].
        reflexivity.
      * rewrite (migrate_entity_unique_id_short_inv e Hrun).
        cbn. by rewrite <- Hreg, with_entity_registry_id.
    + cbn [mret M_ret].
      rewrite (Hnext _ _ Hreg).
      destruct (migrated_entities config_entry_id entries) as [o rest].
      reflexivity.
Qed.

Lemma async_migrate_entries_run (config_entry_id : string) (st : State) :
  async_migrate_entries config_entry_id _migrate_entity_unique_id st
  = ((migrated_entities config_entry_id (entity_registry (hass st))).1,
     with_entity_registry
       (migrated_entities config_entry_id (entity_registry (hass st))).2 st).
Proof.
  unfold async_migrate_entries. run_gets.
  exact (migrate_entries_from_run config_entry_id _ [] st eq_refl).
Qed.

Lemma migrated_entities_raises (config_entry_id : string)
    (entries : list RegistryEntry.t) (x : exn) :
  (migrated_entities config_entry_id entries).1 = Raised x → x = IndexError.
Proof.
  induction entries as [|e entries IH]; cbn [migrated_entities]; [done|].
  destruct (decide (RegistryEntry.config_entry_id e = config_entry_id)).
  - unfold migrated_entity.
    destruct (PyStr.split "-" (RegistryEntry.unique_id e) !! 2%nat).
    + destruct (migrated_entities config_entry_id entries) as [o rest].
      exact IH.
    + cbn. congruence.
  - destruct (migrated_entities config_entry_id entries) as [o rest].
    exact IH.
Qed.


(** ** The whole migration of a version-1 entry *)

Lemma migrate_entry_run (DOMAIN : string) (st : State) :
  ConfigEntry.version (config_entry st) = 1 →
  truthy (ConfigEntry.unique_id (config_entry st)) = true →
  async_migrate_entry DOMAIN st
  = let batch :=
      migrated_entities (ConfigEntry.entry_id (config_entry st))
        (entity_registry (hass st)) in
    (batch.1 ≫= λ _, Returned true,
     with_entity_registry batch.2
       (step_b_state DOMAIN (ConfigEntry.unique_id (config_entry st))
          (step_a_state st))).
Proof.
  intros Hversion Htruthy. unfold async_migrate_entry.
  rewrite run_bind. cbn [gets].
  destruct (decide (ConfigEntry.version (config_entry st) = 1)); [|done].
  run_gets. unfold py_assert. rewrite Htruthy.
  cbn [mret M_ret]. run_gets.
  cbn [set_unique_id set_version async_update_entry modify].
  repeat (rewrite run_bind;
          cbn [set_unique_id set_version async_update_entry modify gets]).
  match goal with
  | |- context [_async_migrate_device_identifiers DOMAIN ?o ?s] =>
      change s with (step_a_state st)
  end.
  rewrite migrate_device_identifiers_run.
  rewrite async_migrate_entries_run, step_b_state_entities.
  cbn [step_a_state hass entity_registry ConfigEntry.entry_id
       migrated_config_entry].
  by destruct (migrated_entities _ _).1.
Qed.

(** The scenario of the specification, run. *)
Lemma end_to_end_run (DOMAIN : string) :
  async_migrate_entry DOMAIN (end_to_end_state DOMAIN)
  = (Returned true,
     mkState
       (mkHass {[ "E1" := ConfigEntry.mk "E1" None 2 ∅ ]}
          [DeviceEntry.mk "device1" {[ "E1" ]} {[ (DOMAIN, "E1") ]}]
          [RegistryEntry.mk "sensor.protocol_version" "E1-protocol_version"
             "E1"])
       (ConfigEntry.mk "E1" None 2 ∅)).
Proof.
  set (d := DeviceEntry.mk "device1" {[ "E1" ]} {[ (DOMAIN, "abc123") ]}).
  assert (Hfirst : first_legacy_device (Some "abc123") "E1" [d] = Some d).
  { apply (first_legacy_device_split (Some "abc123") "E1" [] [] d).
    - cbn. set_solver.
    - apply has_legacy_identifier_elem_of.
      exists (DOMAIN, "abc123"). split; [cbn; set_solver|reflexivity].
    - intros d' Hin. by apply elem_of_nil in Hin. }
  rewrite migrate_entry_run by reflexivity. cbn zeta.
  unfold step_b_state.
  match goal with
  | |- context [first_legacy_device ?old ?entry_id ?registry] =>
      change (first_legacy_device old entry_id registry)
        with (first_legacy_device (Some "abc123") "E1" [d])
  end.
  rewrite Hfirst. reflexivity.
Qed.

(** ** Dashes in the pieces of a unique id *)

Lemma dash_free_app_dash (p q : string) : ¬ dash_free (p +:+ "-" +:+ q).
Proof. induction p as [|c p IH]; cbn; intros [? ?]; [done|by apply IH]. Qed.

Lemma lower_char_not_dash (c : ascii) :
  c ≠ "-"%char → PyStr.lower_char c ≠ "-"%char.
Proof.
  destruct c as [[] [] [] [] [] [] [] []]; vm_compute; congruence.
Qed.

Lemma lower_dash_free (s : string) : dash_free s → dash_free (PyStr.lower s).
Proof.
  induction s as [|c s IH]; cbn; [done|]. intros [Hc Hs].
  split; [by apply lower_char_not_dash|by apply IH].
Qed.

Lemma replace_dash_free (s : string) :
  dash_free s → dash_free (PyStr.replace " " "_" s).
Proof.
  induction s as [|c s IH]; cbn; [done|]. intros [Hc Hs].
  split; [|by apply IH]. by destruct (Ascii.eqb c " ").
Qed.

Lemma split_dash_free (s piece : string) :
  piece ∈ PyStr.split "-" s → dash_free piece.
Proof.
  revert piece. induction s as [|c s IH]; intros piece; cbn [PyStr.split].
  - intros Hin. apply list_elem_of_singleton in Hin. by subst piece.
  - destruct (Ascii.eqb_spec c "-") as [->|Hc].
    + intros Hin. apply elem_of_cons in Hin as [->|Hin]; [done|by apply IH].
    + destruct (PyStr.split "-" s) as [|p ps].
      * intros Hin. apply list_elem_of_singleton in Hin. by subst piece.
      * intros Hin. apply elem_of_cons in Hin as [->|Hin].
        -- split; [done|]. apply IH. by left.
        -- apply IH. by right.
Qed.

Lemma normalized_type_dash_free (token : string) :
  dash_free token → dash_free (normalized_type token).
Proof.
  intros Htoken. unfold normalized_type, rename_table.
  set (key := PyStr.replace " " "_" (PyStr.lower token)).
  assert (Hkey : dash_free key) by by apply replace_dash_free, lower_dash_free.
  destruct (decide (key = "world_message")) as [->|Hmotd];
    [vm_compute; repeat split; congruence|].
  rewrite lookup_insert_ne by congruence.
  destruct (decide (key = "latency_time")) as [->|Hlat];
    [vm_compute; repeat split; congruence|].
  by rewrite lookup_singleton_ne by congruence.
Qed.

(** * The claims *)

(** ** Decoding of entity unique ids *)

(** C1. For an entity record whose legacy unique id, split on '-', has an
    element at index 2, an ASCII text, the decoding returns
    new_unique_id = '<config_entry_id>-<normalized_type>', where
    normalized_type is that element lowercased, with spaces replaced by
    underscores, and then renamed: 'world_message' to the MOTD key,
    'latency_time' to the latency key, every other token unchanged. *)
Theorem C1_entity_unique_id_decoding (e : RegistryEntry.t) (token : string) :
  PyStr.split "-" (RegistryEntry.unique_id e) !! 2%nat = Some token →
  PyStr.isascii token = true →
  _migrate_entity_unique_id e
  = Returned
      {[ "new_unique_id" :=
           RegistryEntry.config_entry_id e +:+ "-" +:+ normalized_type token ]}
  ∧ (let key := PyStr.replace " " "_" (PyStr.lower token) in
     (key = "world_message" → normalized_type token = KEY_MOTD)
     ∧ (key = "latency_time" → normalized_type token = KEY_LATENCY)
     ∧ (key ≠ "world_message" → key ≠ "latency_time" →
        normalized_type token = key)).
Proof.
  intros Hpiece _.
  split; [exact (migrate_entity_unique_id_at e token Hpiece)|].
  intros key. unfold normalized_type, rename_table. fold key.
  split; [by intros ->|]. split; [by intros ->|].
  intros Hmotd Hlatency. rewrite lookup_insert_ne by congruence.
  by rewrite lookup_singleton_ne by congruence.
Qed.

Lemma C1_entity_unique_id_decoding_witness :
  PyStr.split "-" "abc123-25565-Protocol Version" !! 2%nat
  = Some "Protocol Version"
  ∧ PyStr.isascii "Protocol Version" = true
  ∧ _migrate_entity_unique_id
      (RegistryEntry.mk "sensor.protocol_version"
         "abc123-25565-Protocol Version" "E1")
    = Returned {[ "new_unique_id" := "E1-protocol_version" ]}.
Proof.
  split; [reflexivity|]. split; [reflexivity|].
  exact (proj1 (C1_entity_unique_id_decoding
                  (RegistryEntry.mk "sensor.protocol_version"
                     "abc123-25565-Protocol Version" "E1")
                  "Protocol Version" eq_refl eq_refl)).
Defined.

(** C7. For a legacy unique id with exactly 3 dash-separated segments the
    decoding is total: it returns a new unique id, no exception; and it is
    deterministic: the result is a function of the record's [unique_id] and
    [config_entry_id], so that two runs on the same record agree. *)
Theorem C7_decoding_total_deterministic (e : RegistryEntry.t) :
  length (PyStr.split "-" (RegistryEntry.unique_id e)) = 3%nat →
  (∃ new_unique_id,
      _migrate_entity_unique_id e
      = Returned {[ "new_unique_id" := new_unique_id ]})
  ∧ (∀ e',
      RegistryEntry.unique_id e' = RegistryEntry.unique_id e →
      RegistryEntry.config_entry_id e' = RegistryEntry.config_entry_id e →
      _migrate_entity_unique_id e' = _migrate_entity_unique_id e).
Proof.
  intros Hlen. split.
  - destruct (PyStr.split "-" (RegistryEntry.unique_id e) !! 2%nat)
      as [token|] eqn:Hpiece.
    + eexists. by apply migrate_entity_unique_id_at.
    + apply lookup_ge_None in Hpiece. lia.
  - intros e' Huid Hcfg. unfold _migrate_entity_unique_id.
    by rewrite Huid, Hcfg.
Qed.

Lemma C7_decoding_total_deterministic_witness :
  length (PyStr.split "-" "myhost-srv-Latency Time") = 3%nat
  ∧ ∃ new_unique_id,
      _migrate_entity_unique_id
        (RegistryEntry.mk "sensor.latency" "myhost-srv-Latency Time" "E1")
      = Returned {[ "new_unique_id" := new_unique_id ]}.
Proof.
  split; [reflexivity|].
  exact (proj1 (C7_decoding_total_deterministic
                  (RegistryEntry.mk "sensor.latency"
                     "myhost-srv-Latency Time" "E1") eq_refl)).
Defined.

(** C8, as stated, fails: on a legacy unique id with fewer than 3 segments
    the decoding does raise. Here the id has two segments. *)
Lemma C8_malformed_id_raises_counterexample :
  let e := RegistryEntry.mk "sensor.latency" "myhost-Latency Time" "E1" in
  (length (PyStr.split "-" (RegistryEntry.unique_id e)) < 3)%nat
  ∧ _migrate_entity_unique_id e = Raised IndexError
  ∧ ¬ ∃ updates, _migrate_entity_unique_id e = Returned updates.
Proof.
  cbn zeta. split; [vm_compute; lia|].
  split; [reflexivity|]. intros [updates Hrun]. discriminate Hrun.
Qed.

(** C8, amended. For every entity whose legacy unique id has fewer than 3
    dash-separated segments, the decoding raises [IndexError] at the
    index-2 access and produces no output. *)
Theorem C8_malformed_id_raises (e : RegistryEntry.t) :
  (length (PyStr.split "-" (RegistryEntry.unique_id e)) < 3)%nat →
  _migrate_entity_unique_id e = Raised IndexError.
Proof.
  intros Hlen. apply migrate_entity_unique_id_short.
  apply lookup_ge_None. lia.
Qed.

Lemma C8_malformed_id_raises_witness :
  (length (PyStr.split "-" "myhost") < 3)%nat
  ∧ _migrate_entity_unique_id (RegistryEntry.mk "sensor.latency" "myhost" "E1")
    = Raised IndexError.
Proof.
  assert (Hlen : (length (PyStr.split "-" "myhost") < 3)%nat)
    by (vm_compute; lia).
  split; [exact Hlen|].
  exact (C8_malformed_id_raises
           (RegistryEntry.mk "sensor.latency" "myhost" "E1") Hlen).
Defined.

(** ** The version gate and the precondition of Step A *)

(** C3. Idempotence: on a config entry whose stored version is not the
    legacy value 1 (an entry at version 2, in particular) the migration
    returns success and leaves the config entry, the store, the device
    registry and the entity registry as they were. *)
Theorem C3_other_version_is_noop (DOMAIN : string) (st : State) :
  ConfigEntry.version (config_entry st) ≠ 1 →
  async_migrate_entry DOMAIN st = (Returned true, st).
Proof. apply migrate_entry_other_version. Qed.

Lemma C3_other_version_is_noop_witness :
  ConfigEntry.version (config_entry migrated_sample) ≠ 1
  ∧ async_migrate_entry sample_domain migrated_sample
    = (Returned true, migrated_sample).
Proof.
  assert (Hversion : ConfigEntry.version (config_entry migrated_sample) ≠ 1)
    by (cbn; lia).
  split; [exact Hversion|].
  exact (C3_other_version_is_noop sample_domain migrated_sample Hversion).
Defined.

(** C4, as stated, fails in its remark on the precondition: a version-1
    entry whose unique_id is non-null, the empty string, reaches the error
    branch. *)
Lemma C4_null_unique_id_asserts_counterexample :
  let st := legacy_sample (Some "") in
  ConfigEntry.version (config_entry st) = 1
  ∧ ConfigEntry.unique_id (config_entry st) ≠ None
  ∧ async_migrate_entry sample_domain st = (Raised AssertionError, st).
Proof. cbn zeta. split; [reflexivity|]. split; [done|reflexivity]. Qed.

(** C4, amended. For every config entry at version 1 whose unique_id is
    null, the migration raises [AssertionError] before any update, the
    state being left unchanged and the exception reaching the caller; the
    assertion cannot fail when the legacy unique_id is non-null and
    non-empty. *)
Theorem C4_null_unique_id_asserts (DOMAIN : string) (st : State) :
  ConfigEntry.version (config_entry st) = 1 →
  (ConfigEntry.unique_id (config_entry st) = None →
   async_migrate_entry DOMAIN st = (Raised AssertionError, st))
  ∧ (∀ u, ConfigEntry.unique_id (config_entry st) = Some u → u ≠ "" →
     (async_migrate_entry DOMAIN st).1 ≠ Raised AssertionError).
Proof.
  intros Hversion. split.
  - intros Hnull. apply migrate_entry_assert_fails; [done|].
    by rewrite Hnull.
  - intros u Hsome Hnonempty.
    rewrite migrate_entry_run;
      [|done|rewrite Hsome; by destruct u].
    cbn zeta. cbn [fst].
    destruct (migrated_entities _ _).1 as [[]|x] eqn:Hbatch; [done|].
    apply migrated_entities_raises in Hbatch. subst x. done.
Qed.

Lemma C4_null_unique_id_asserts_witness :
  ConfigEntry.version (config_entry (legacy_sample None)) = 1
  ∧ async_migrate_entry sample_domain (legacy_sample None)
    = (Raised AssertionError, legacy_sample None).
Proof.
  split; [reflexivity|].
  exact (proj1 (C4_null_unique_id_asserts sample_domain (legacy_sample None)
                  eq_refl) eq_refl).
Defined.

(** C10. The precondition check rejects an empty-string legacy unique_id
    exactly as it rejects a null one: for every version-1 entry whose
    unique_id is the empty string the migration raises [AssertionError]
    and leaves the state unchanged, the asserted truth value being that
    of [None]. *)
Theorem C10_empty_unique_id_asserts (DOMAIN : string) (st : State) :
  ConfigEntry.version (config_entry st) = 1 →
  ConfigEntry.unique_id (config_entry st) = Some "" →
  async_migrate_entry DOMAIN st = (Raised AssertionError, st)
  ∧ py_assert (truthy (Some "")) = py_assert (truthy None).
Proof.
  intros Hversion Hempty. split; [|reflexivity].
  apply migrate_entry_assert_fails; [done|]. by rewrite Hempty.
Qed.

Lemma C10_empty_unique_id_asserts_witness :
  ConfigEntry.version (config_entry (legacy_sample (Some ""))) = 1
  ∧ ConfigEntry.unique_id (config_entry (legacy_sample (Some ""))) = Some ""
  ∧ async_migrate_entry sample_domain (legacy_sample (Some ""))
    = (Raised AssertionError, legacy_sample (Some "")).
Proof.
  split; [reflexivity|]. split; [reflexivity|].
  exact (proj1 (C10_empty_unique_id_asserts sample_domain
                  (legacy_sample (Some "")) eq_refl eq_refl)).
Defined.

(** ** Step A and Step B *)

(** C5. Frame of Step A: migrating a version-1 entry (one that passes the
    check on its legacy unique id) sets the entry's unique_id to null and
    its version to 2, leaves entry_id and data unchanged, and writes the
    updated entry to the store under its entry id, the other stored
    entries staying as they were. This holds of the state the migration
    leaves behind whether or not a later step raises. *)
Theorem C5_step_a_frame (DOMAIN : string) (st : State) :
  ConfigEntry.version (config_entry st) = 1 →
  truthy (ConfigEntry.unique_id (config_entry st)) = true →
  let c := config_entry st in
  let st' := (async_migrate_entry DOMAIN st).2 in
  let c' := config_entry st' in
  ConfigEntry.unique_id c' = None
  ∧ ConfigEntry.version c' = 2
  ∧ ConfigEntry.entry_id c' = ConfigEntry.entry_id c
  ∧ ConfigEntry.data c' = ConfigEntry.data c
  ∧ config_entries (hass st') !! ConfigEntry.entry_id c = Some c'
  ∧ (∀ other, other ≠ ConfigEntry.entry_id c →
       config_entries (hass st') !! other
       = config_entries (hass st) !! other).
Proof.
  intros Hversion Htruthy. cbn zeta.
  rewrite migrate_entry_run by done. cbn zeta. cbn [snd].
  unfold with_entity_registry.
  cbn [config_entry hass config_entries].
  rewrite step_b_state_config_entry, step_b_state_config_entries.
  cbn [step_a_state config_entry hass config_entries migrated_config_entry
       ConfigEntry.unique_id ConfigEntry.version ConfigEntry.entry_id
       ConfigEntry.data].
  repeat split.
  - by rewrite lookup_insert_eq.
  - intros other Hother. by rewrite lookup_insert_ne.
Qed.

Lemma C5_step_a_frame_witness :
  let st := legacy_sample (Some "abc123") in
  ConfigEntry.version (config_entry st) = 1
  ∧ truthy (ConfigEntry.unique_id (config_entry st)) = true
  ∧ ConfigEntry.unique_id
      (config_entry (async_migrate_entry sample_domain st).2) = None.
Proof.
  cbn zeta. split; [reflexivity|]. split; [reflexivity|].
  exact (proj1 (C5_step_a_frame sample_domain
                  (legacy_sample (Some "abc123")) eq_refl eq_refl)).
Defined.

(** C6. Step B: among the devices associated with the config entry, in
    registry order, the first one with an identifier whose second
    component equals old_unique_id gets the singleton (DOMAIN, entry_id)
    as its whole identifier set; no other device changes, neither the
    non-matching ones before it nor any device after it; and when no
    associated device matches, nothing changes. Device ids are distinct,
    as the keys of the registry are. *)
Theorem C6_first_matching_device_rewritten (DOMAIN : string) (st : State)
    (old_unique_id : option string) :
  NoDup (DeviceEntry.id <$> device_registry (hass st)) →
  let entry_id := ConfigEntry.entry_id (config_entry st) in
  let associated d := entry_id ∈ DeviceEntry.config_entries d in
  let matching d :=
    ∃ identifier, identifier ∈ DeviceEntry.identifiers d ∧
                  Some (identifier.2) = old_unique_id in
  (∀ before d after,
      device_registry (hass st) = before ++ d :: after →
      associated d → matching d →
      (∀ d', d' ∈ before → associated d' → ¬ matching d') →
      _async_migrate_device_identifiers DOMAIN old_unique_id st
      = (Returned tt,
         with_device_registry
           (before
            ++ DeviceEntry.with_identifiers {[ (DOMAIN, entry_id) ]} d
            :: after) st))
  ∧ ((∀ d, d ∈ device_registry (hass st) → associated d → ¬ matching d) →
     _async_migrate_device_identifiers DOMAIN old_unique_id st
     = (Returned tt, st)).
Proof.
  intros Hnodup entry_id associated matching.
  rewrite migrate_device_identifiers_run. unfold step_b_state.
  fold entry_id. split.
  - intros before d after Hreg Hassoc Hmatch Hbefore.
    rewrite Hreg, (first_legacy_device_split old_unique_id entry_id
                     before after d Hassoc).
    + unfold migrated_device_state. fold entry_id.
      rewrite Hreg, update_identifiers_split; [done|by rewrite <- Hreg].
    + by apply has_legacy_identifier_elem_of.
    + intros d' Hin Hassoc' Hlegacy. apply (Hbefore d' Hin Hassoc').
      by apply has_legacy_identifier_elem_of.
  - intros Hnone. rewrite first_legacy_device_none; [done|].
    intros d Hin Hassoc Hlegacy. apply (Hnone d Hin Hassoc).
    by apply has_legacy_identifier_elem_of.
Qed.

Lemma C6_first_matching_device_rewritten_witness :
  NoDup (DeviceEntry.id <$> device_registry (hass two_devices_sample))
  ∧ _async_migrate_device_identifiers sample_domain (Some "abc123")
      two_devices_sample
    = (Returned tt,
       with_device_registry
         [DeviceEntry.mk "device1" {[ "E1" ]} {[ (sample_domain, "other") ]};
          DeviceEntry.mk "device2" {[ "E1" ]} {[ (sample_domain, "E1") ]}]
         two_devices_sample).
Proof.
  split; [exact two_devices_sample_NoDup|].
  refine (proj1 (C6_first_matching_device_rewritten sample_domain
                   two_devices_sample (Some "abc123")
                   two_devices_sample_NoDup)
            [DeviceEntry.mk "device1" {[ "E1" ]} {[ (sample_domain, "other") ]}]
            (DeviceEntry.mk "device2" {[ "E1" ]}
               {[ (sample_domain, "abc123"); ("mac", "aa:bb") ]})
            [] eq_refl _ _ _).
  - cbn. set_solver.
  - exists (sample_domain, "abc123"). split; [cbn; set_solver|reflexivity].
  - intros d' Hin _ (identifier & Hid & Hold).
    apply list_elem_of_singleton in Hin. subst d'.
    cbn in Hid. apply elem_of_singleton in Hid. subst identifier.
    discriminate Hold.
Defined.

(** ** End to end *)

(** C2. End to end: for the entry with unique_id abc123, version 1 and
    entry_id E1, one device with identifier set {(DOMAIN, abc123)} and one
    entity with unique_id 'abc123-25565-Protocol Version', the migration
    returns success and leaves the entry at version 2 with unique_id None
    (also in the store), the device with identifier set {(DOMAIN, E1)} and
    the entity with unique_id 'E1-protocol_version'. *)
Theorem C2_end_to_end (DOMAIN : string) :
  ∃ st' d' e',
    async_migrate_entry DOMAIN (end_to_end_state DOMAIN) = (Returned true, st')
    ∧ ConfigEntry.version (config_entry st') = 2
    ∧ ConfigEntry.unique_id (config_entry st') = None
    ∧ config_entries (hass st') !! "E1" = Some (config_entry st')
    ∧ device_registry (hass st') = [d']
    ∧ DeviceEntry.identifiers d' = {[ (DOMAIN, "E1") ]}
    ∧ entity_registry (hass st') = [e']
    ∧ RegistryEntry.unique_id e' = "E1-protocol_version".
Proof.
  eexists _, _, _. split; [exact (end_to_end_run DOMAIN)|].
  cbn [config_entry hass config_entries device_registry entity_registry
       ConfigEntry.version ConfigEntry.unique_id].
  split; [reflexivity|]. split; [reflexivity|].
  split; [apply lookup_singleton_eq|].
  split; [reflexivity|]. split; [reflexivity|].
  split; reflexivity.
Qed.

(** ** The post-migration invariant *)



(** * Further properties of the migration *)

(** ** Splitting ids built with dashes *)

Lemma split_dash_free_id (p : string) :
  dash_free p → PyStr.split "-" p = [p].
Proof.
  induction p as [|c p IH]; [done|]. intros [Hc Hp].
  cbn [PyStr.split]. destruct (Ascii.eqb_spec c "-") as [->|_]; [done|].
  by rewrite (IH Hp).
Qed.

Lemma split_app_dash (p s : string) :
  dash_free p → PyStr.split "-" (p +:+ "-" +:+ s) = p :: PyStr.split "-" s.
Proof.
  induction p as [|c p IH]; [done|]. intros [Hc Hp].
  change (String c p +:+ "-" +:+ s) with (String c (p +:+ "-" +:+ s)).
  cbn [PyStr.split]. destruct (Ascii.eqb_spec c "-") as [->|_]; [done|].
  by rewrite (IH Hp).
Qed.

Lemma split_nonempty (s : string) : PyStr.split "-" s ≠ [].
Proof.
  destruct s as [|c s]; [done|]. cbn [PyStr.split].
  destruct (Ascii.eqb c "-"); [done|]. by destruct (PyStr.split "-" s).
Qed.

Lemma returned_new_unique_id_inj (u v : string) :
  Returned ({[ "new_unique_id" := u ]} : gmap string string)
  = Returned {[ "new_unique_id" := v ]} → u = v.
Proof.
  intros Heq.
  apply (f_equal (λ o : outcome (gmap string string),
                    match o with
                    | Returned m => m !! "new_unique_id"
                    | Raised _ => None
                    end)) in Heq.
  rewrite !lookup_singleton_eq in Heq. by injection Heq.
Qed.

(** What a returned decoding was computed from. *)
Lemma migrate_entity_unique_id_returned (e : RegistryEntry.t) (u : string) :
  _migrate_entity_unique_id e = Returned {[ "new_unique_id" := u ]} →
  ∃ token,
    PyStr.split "-" (RegistryEntry.unique_id e) !! 2%nat = Some token
    ∧ u = RegistryEntry.config_entry_id e +:+ "-" +:+ normalized_type token.
Proof.
  intros Hrun.
  destruct (migrate_entity_unique_id_cases e)
    as [(token & Hpiece & Hrun')|Hrun']; rewrite Hrun' in Hrun; [|done].
  exists token. split; [done|].
  symmetry. by apply returned_new_unique_id_inj.
Qed.

(** ** Keys *)

Lemma key_shaped_dash_free (s : string) : key_shaped s → dash_free s.
Proof.
  induction s as [|c s IH]; [done|]. intros [(Hc & _ & _) Hs].
  split; [done|by apply IH].
Qed.

Lemma normalized_char_key_shaped (c : ascii) :
  c ≠ "-"%char →
  let c' := if Ascii.eqb (PyStr.lower_char c) " " then "_"%char
            else PyStr.lower_char c in
  c' ≠ "-"%char ∧ c' ≠ " "%char ∧ PyStr.lower_char c' = c'.
Proof.
  destruct c as [[] [] [] [] [] [] [] []]; intros Hc; vm_compute;
    (repeat split; congruence).
Qed.

Lemma normalize_key_shaped (s : string) :
  dash_free s → key_shaped (PyStr.replace " " "_" (PyStr.lower s)).
Proof.
  induction s as [|c s IH]; [done|]. intros [Hc Hs].
  cbn [PyStr.lower PyStr.replace key_shaped].
  split; [by apply normalized_char_key_shaped|by apply IH].
Qed.

Lemma normalized_type_key_shaped (token : string) :
  dash_free token → key_shaped (normalized_type token).
Proof.
  intros Htoken. unfold normalized_type, rename_table.
  set (key := PyStr.replace " " "_" (PyStr.lower token)).
  assert (Hkey : key_shaped key) by by apply normalize_key_shaped.
  destruct (decide (key = "world_message")) as [->|Hmotd];
    [vm_compute; repeat split; congruence|].
  rewrite lookup_insert_ne by congruence.
  destruct (decide (key = "latency_time")) as [->|Hlat];
    [vm_compute; repeat split; congruence|].
  by rewrite lookup_singleton_ne by congruence.
Qed.

(** ** The decoding beyond three segments, and on its own output *)

(** X1. The decoding reads the third dash-separated segment and nothing
    after it: for an ASCII c, an id 'a-b-c' and an id 'a-b-c-rest' both
    decode to '<config_entry_id>-<normalized c>'. A host name with a dash
    in it so shifts the type out of reach. *)
Theorem X1_third_segment_decoded (e : RegistryEntry.t) (a b c : string) :
  dash_free a → dash_free b → dash_free c → PyStr.isascii c = true →
  (RegistryEntry.unique_id e = a +:+ "-" +:+ b +:+ "-" +:+ c
   ∨ ∃ rest,
       RegistryEntry.unique_id e
       = a +:+ "-" +:+ b +:+ "-" +:+ c +:+ "-" +:+ rest) →
  _migrate_entity_unique_id e
  = Returned
      {[ "new_unique_id" :=
           RegistryEntry.config_entry_id e +:+ "-" +:+ normalized_type c ]}.
Proof.
  intros Ha Hb Hc _ Hid. apply migrate_entity_unique_id_at.
  destruct Hid as [->|[rest ->]]; rewrite !split_app_dash by done.
  - by rewrite split_dash_free_id.
  - reflexivity.
Qed.

Lemma X1_third_segment_decoded_witness :
  dash_free "my" ∧ dash_free "host" ∧ dash_free "25565"
  ∧ PyStr.isascii "25565" = true
  ∧ _migrate_entity_unique_id
      (RegistryEntry.mk "sensor.latency" "my-host-25565-Latency Time" "E1")
    = Returned {[ "new_unique_id" := "E1-25565" ]}.
Proof.
  assert (Ha : dash_free "my") by (cbn; repeat split; congruence).
  assert (Hb : dash_free "host") by (cbn; repeat split; congruence).
  assert (Hc : dash_free "25565") by (cbn; repeat split; congruence).
  split; [exact Ha|]. split; [exact Hb|]. split; [exact Hc|].
  split; [reflexivity|].
  exact (X1_third_segment_decoded
           (RegistryEntry.mk "sensor.latency" "my-host-25565-Latency Time"
              "E1")
           "my" "host" "25565" Ha Hb Hc eq_refl
           (or_intror (ex_intro _ "Latency Time" eq_refl))).
Defined.

(** X2. The decoding does not accept its own output: when the config entry
    id has no dash, a new unique id has exactly two segments, the entry id
    and the key, and decoding it again raises [IndexError]. *)
Theorem X2_decoded_id_not_decodable (e : RegistryEntry.t) (u : string) :
  dash_free (RegistryEntry.config_entry_id e) →
  _migrate_entity_unique_id e = Returned {[ "new_unique_id" := u ]} →
  (∃ key, PyStr.split "-" u = [RegistryEntry.config_entry_id e; key])
  ∧ _migrate_entity_unique_id (RegistryEntry.with_unique_id u e)
    = Raised IndexError.
Proof.
  intros Hcfg Hrun.
  destruct (migrate_entity_unique_id_returned e u Hrun)
    as (token & Hpiece & ->).
  assert (Hkey : dash_free (normalized_type token)).
  { apply normalized_type_dash_free.
    apply (split_dash_free (RegistryEntry.unique_id e)).
    by apply list_elem_of_lookup_2 in Hpiece. }
  assert (Hsplit :
    PyStr.split "-"
      (RegistryEntry.config_entry_id e +:+ "-" +:+ normalized_type token)
    = [RegistryEntry.config_entry_id e; normalized_type token]).
  { by rewrite split_app_dash, split_dash_free_id. }
  split; [by exists (normalized_type token)|].
  apply migrate_entity_unique_id_short. cbn [RegistryEntry.with_unique_id
    RegistryEntry.unique_id]. by rewrite Hsplit.
Qed.

Lemma X2_decoded_id_not_decodable_witness :
  dash_free "E1"
  ∧ _migrate_entity_unique_id
      (RegistryEntry.mk "sensor.latency" "myhost-srv-Latency Time" "E1")
    = Returned {[ "new_unique_id" := "E1-latency" ]}
  ∧ _migrate_entity_unique_id
      (RegistryEntry.mk "sensor.latency" "E1-latency" "E1")
    = Raised IndexError.
Proof.
  assert (Hcfg : dash_free "E1") by (cbn; repeat split; congruence).
  split; [exact Hcfg|]. split; [reflexivity|].
  exact (proj2 (X2_decoded_id_not_decodable
                  (RegistryEntry.mk "sensor.latency"
                     "myhost-srv-Latency Time" "E1")
                  "E1-latency" Hcfg eq_refl)).
Defined.

(** X3. Whatever the legacy id, the key of a new unique id is a machine
    key: the id is '<config_entry_id>-<key>' with a key free of dashes,
    spaces and upper-case ASCII letters. *)
Theorem X3_decoded_key_shape (e : RegistryEntry.t) (u : string) :
  _migrate_entity_unique_id e = Returned {[ "new_unique_id" := u ]} →
  ∃ key, u = RegistryEntry.config_entry_id e +:+ "-" +:+ key
         ∧ key_shaped key.
Proof.
  intros Hrun.
  destruct (migrate_entity_unique_id_returned e u Hrun)
    as (token & Hpiece & ->).
  exists (normalized_type token). split; [done|].
  apply normalized_type_key_shaped.
  apply (split_dash_free (RegistryEntry.unique_id e)).
  by apply list_elem_of_lookup_2 in Hpiece.
Qed.

Lemma X3_decoded_key_shape_witness :
  _migrate_entity_unique_id
    (RegistryEntry.mk "sensor.motd" "myhost-srv-World Message" "E1")
  = Returned {[ "new_unique_id" := "E1-motd" ]}
  ∧ ∃ key, "E1-motd" = "E1" +:+ "-" +:+ key ∧ key_shaped key.
Proof.
  split; [reflexivity|].
  exact (X3_decoded_key_shape
           (RegistryEntry.mk "sensor.motd" "myhost-srv-World Message" "E1")
           "E1-motd" eq_refl).
Defined.

(** ** The batch of Step C, entity by entity *)

Lemma malformed_for_lookup (config_entry_id : string) (e : RegistryEntry.t) :
  RegistryEntry.config_entry_id e = config_entry_id →
  (malformed_for config_entry_id e
   ↔ PyStr.split "-" (RegistryEntry.unique_id e) !! 2%nat = None).
Proof.
  intros Hown. unfold malformed_for. rewrite lookup_ge_None.
  split; [intros [_ ?]; lia|intros ?; split; [done|lia]].
Qed.

(** The batch on a stretch whose first malformed entity is [bad]. *)
Lemma migrated_entities_split (config_entry_id : string)
    (before after : list RegistryEntry.t) (bad : RegistryEntry.t) :
  Forall (λ e, ¬ malformed_for config_entry_id e) before →
  malformed_for config_entry_id bad →
  migrated_entities config_entry_id (before ++ bad :: after)
  = (Raised IndexError,
     (migrate_owned config_entry_id <$> before) ++ bad :: after).
Proof.
  intros Hbefore Hbad.
  induction before as [|e before IH]; cbn [app fmap list_fmap migrated_entities].
  - destruct Hbad as [Hown Hshort]. rewrite decide_True by done.
    unfold migrated_entity.
    by rewrite (proj1 (malformed_for_lookup _ bad Hown) (conj Hown Hshort)).
  - apply Forall_cons in Hbefore as [He Hbefore].
    rewrite (IH Hbefore). unfold migrate_owned.
    destruct (decide (RegistryEntry.config_entry_id e = config_entry_id))
      as [Hown|Hother]; [|done].
    unfold migrated_entity.
    destruct (PyStr.split "-" (RegistryEntry.unique_id e) !! 2%nat)
      as [token|] eqn:Hpiece; [done|].
    exfalso. apply He. by apply malformed_for_lookup.
Qed.

(** The batch on a stretch without malformed entities. *)
Lemma migrated_entities_all (config_entry_id : string)
    (entries : list RegistryEntry.t) :
  Forall (λ e, ¬ malformed_for config_entry_id e) entries →
  migrated_entities config_entry_id entries
  = (Returned tt, migrate_owned config_entry_id <$> entries).
Proof.
  induction entries as [|e entries IH]; [done|]. intros Hall.
  apply Forall_cons in Hall as [He Hall].
  cbn [fmap list_fmap migrated_entities]. rewrite (IH Hall).
  unfold migrate_owned.
  destruct (decide (RegistryEntry.config_entry_id e = config_entry_id))
    as [Hown|Hother]; [|done].
  unfold migrated_entity.
  destruct (PyStr.split "-" (RegistryEntry.unique_id e) !! 2%nat)
    as [token|] eqn:Hpiece; [done|].
  exfalso. apply He. by apply malformed_for_lookup.
Qed.

(** Either no entity is malformed or there is a first one. *)
Lemma first_malformed (config_entry_id : string)
    (entries : list RegistryEntry.t) :
  Forall (λ e, ¬ malformed_for config_entry_id e) entries
  ∨ ∃ before bad after,
      entries = before ++ bad :: after
      ∧ Forall (λ e, ¬ malformed_for config_entry_id e) before
      ∧ malformed_for config_entry_id bad.
Proof.
  induction entries as [|e entries IH]; [by left|].
  destruct (decide (malformed_for config_entry_id e)) as [He|He].
  - right. exists [], e, entries.
    split; [done|]. split; [constructor|done].
  - destruct IH as [Hall|(before & bad & after & -> & Hbefore & Hbad)].
    + left. by apply Forall_cons.
    + right. exists (e :: before), bad, after.
      split; [done|]. split; [by apply Forall_cons|done].
Qed.

Lemma migrate_owned_keeps (config_entry_id : string) (e : RegistryEntry.t) :
  RegistryEntry.entity_id (migrate_owned config_entry_id e)
  = RegistryEntry.entity_id e
  ∧ RegistryEntry.config_entry_id (migrate_owned config_entry_id e)
    = RegistryEntry.config_entry_id e.
Proof.
  unfold migrate_owned, migrated_entity.
  destruct (decide _); [|done].
  by destruct (PyStr.split "-" (RegistryEntry.unique_id e) !! 2%nat).
Qed.

(** Whatever its outcome, the batch keeps the entities in place, with
    their [entity_id] and their owner. *)
Lemma migrated_entities_keeps (config_entry_id : string)
    (entries : list RegistryEntry.t) :
  Forall2
    (λ e e', RegistryEntry.entity_id e' = RegistryEntry.entity_id e
             ∧ RegistryEntry.config_entry_id e'
               = RegistryEntry.config_entry_id e)
    entries (migrated_entities config_entry_id entries).2.
Proof.
  destruct (first_malformed config_entry_id entries)
    as [Hall|(before & bad & after & -> & Hbefore & Hbad)].
  - rewrite migrated_entities_all by done. cbn [snd].
    apply Forall2_fmap_r, Forall_Forall2_diag, Forall_forall.
    intros e _. apply migrate_owned_keeps.
  - rewrite migrated_entities_split by done. cbn [snd].
    apply Forall2_app.
    + apply Forall2_fmap_r, Forall_Forall2_diag, Forall_forall.
      intros e _. apply migrate_owned_keeps.
    + apply Forall_Forall2_diag, Forall_forall. by intros e _.
Qed.

Lemma update_identifiers_keeps (device_id : string)
    (new_identifiers : gset (string * string))
    (registry : list DeviceEntry.t) :
  Forall2
    (λ d d', DeviceEntry.id d' = DeviceEntry.id d
             ∧ DeviceEntry.config_entries d' = DeviceEntry.config_entries d)
    registry (update_identifiers device_id new_identifiers registry).
Proof.
  unfold update_identifiers.
  apply Forall2_fmap_r, Forall_Forall2_diag, Forall_forall.
  intros d _. unfold compose. cbn beta.
  case_decide; split; reflexivity.
Qed.

Lemma step_b_state_keeps (DOMAIN : string) (old : option string)
    (st : State) :
  Forall2
    (λ d d', DeviceEntry.id d' = DeviceEntry.id d
             ∧ DeviceEntry.config_entries d' = DeviceEntry.config_entries d)
    (device_registry (hass st))
    (device_registry (hass (step_b_state DOMAIN old st))).
Proof.
  unfold step_b_state. destruct first_legacy_device as [d|].
  - apply update_identifiers_keeps.
  - apply Forall_Forall2_diag, Forall_forall. by intros d _.
Qed.

(** ** Outcomes of the migration, partial writes and reruns *)

(** X5. Partial write: when the first malformed entity of the entry sits
    at some place of the registry, the migration does not return: it ends
    in an exception with the entry already at version 2, that entity and
    all after it as they were, and each entity before it either as it was
    or rewritten to '<entry_id>-<key>'. *)
Theorem X5_partial_write_on_malformed_entity (DOMAIN : string) (st : State)
    (before after : list RegistryEntry.t) (bad : RegistryEntry.t) :
  ConfigEntry.version (config_entry st) = 1 →
  truthy (ConfigEntry.unique_id (config_entry st)) = true →
  entity_registry (hass st) = before ++ bad :: after →
  let entry_id := ConfigEntry.entry_id (config_entry st) in
  Forall (λ e, ¬ malformed_for entry_id e) before →
  malformed_for entry_id bad →
  let st' := (async_migrate_entry DOMAIN st).2 in
  (∀ b, (async_migrate_entry DOMAIN st).1 ≠ Returned b)
  ∧ ConfigEntry.version (config_entry st') = 2
  ∧ ∃ before',
      entity_registry (hass st') = before' ++ bad :: after
      ∧ Forall2
          (λ e e',
             e' = e
             ∨ (RegistryEntry.entity_id e' = RegistryEntry.entity_id e
                ∧ RegistryEntry.config_entry_id e' = entry_id
                ∧ ∃ key,
                    RegistryEntry.unique_id e' = entry_id +:+ "-" +:+ key))
          before before'.
Proof.
  intros Hversion Htruthy Hreg entry_id Hbefore Hbad. cbn zeta.
  rewrite migrate_entry_run by done. cbn zeta. fold entry_id.
  rewrite Hreg, migrated_entities_split by done. cbn [fst snd].
  split; [done|]. unfold with_entity_registry.
  cbn [config_entry hass entity_registry].
  split; [by rewrite step_b_state_config_entry|].
  exists (migrate_owned entry_id <$> before). split; [done|].
  apply Forall2_fmap_r, Forall_Forall2_diag, Forall_forall.
  intros e _. unfold compose, migrate_owned, migrated_entity.
  destruct (decide (RegistryEntry.config_entry_id e = entry_id))
    as [Hown|Hother]; [|by left].
  destruct (PyStr.split "-" (RegistryEntry.unique_id e) !! 2%nat)
    as [token|]; [|by left].
  right. cbn. split; [done|]. split; [done|].
  rewrite Hown. by exists (normalized_type token).
Qed.

Lemma migrated_state_version (DOMAIN : string) (st : State) :
  ConfigEntry.version (config_entry st) = 1 →
  truthy (ConfigEntry.unique_id (config_entry st)) = true →
  ConfigEntry.version (config_entry (async_migrate_entry DOMAIN st).2) = 2.
Proof.
  intros Hversion Htruthy. rewrite migrate_entry_run by done.
  cbn zeta. cbn [snd]. unfold with_entity_registry. cbn [config_entry].
  by rewrite step_b_state_config_entry.
Qed.

Lemma X5_partial_write_on_malformed_entity_witness :
  ConfigEntry.version (config_entry partial_sample) = 1
  ∧ truthy (ConfigEntry.unique_id (config_entry partial_sample)) = true
  ∧ (∀ b, (async_migrate_entry sample_domain partial_sample).1 ≠ Returned b)
  ∧ ConfigEntry.version
      (config_entry (async_migrate_entry sample_domain partial_sample).2) = 2.
Proof.
  split; [reflexivity|]. split; [reflexivity|].
  assert (Hbefore :
    Forall (λ e, ¬ malformed_for "E1" e)
      [RegistryEntry.mk "sensor.latency" "abc123-25565-Latency Time" "E1"]).
  { apply Forall_singleton. intros [_ Hshort]. vm_compute in Hshort. lia. }
  assert (Hbad :
    malformed_for "E1"
      (RegistryEntry.mk "sensor.players" "abc123-Players Online" "E1")).
  { split; [reflexivity|]. vm_compute. lia. }
  pose proof (X5_partial_write_on_malformed_entity sample_domain
                partial_sample
                [RegistryEntry.mk "sensor.latency"
                   "abc123-25565-Latency Time" "E1"]
                [RegistryEntry.mk "sensor.motd"
                   "abc123-25565-World Message" "E1"]
                (RegistryEntry.mk "sensor.players" "abc123-Players Online"
                   "E1")
                eq_refl eq_refl eq_refl Hbefore Hbad) as (Hraise & Hv & _).
  split; [exact Hraise|exact Hv].
Defined.

(** X6. After Step A has run, a further call is a no-op: once a version-1
    entry with a legacy unique id has been through the migration, whether
    that call returned or raised in Step C, the next call returns True and
    changes nothing; entities left undecoded by a failure stay so. *)
Theorem X6_rerun_is_noop (DOMAIN : string) (st : State) :
  ConfigEntry.version (config_entry st) = 1 →
  truthy (ConfigEntry.unique_id (config_entry st)) = true →
  let st' := (async_migrate_entry DOMAIN st).2 in
  async_migrate_entry DOMAIN st' = (Returned true, st').
Proof.
  intros Hversion Htruthy. cbn zeta.
  apply migrate_entry_other_version.
  by rewrite migrated_state_version.
Qed.

Lemma X6_rerun_is_noop_witness :
  ConfigEntry.version (config_entry partial_sample) = 1
  ∧ truthy (ConfigEntry.unique_id (config_entry partial_sample)) = true
  ∧ async_migrate_entry sample_domain
      (async_migrate_entry sample_domain partial_sample).2
    = (Returned true, (async_migrate_entry sample_domain partial_sample).2).
Proof.
  split; [reflexivity|]. split; [reflexivity|].
  exact (X6_rerun_is_noop sample_domain partial_sample eq_refl eq_refl).
Defined.

(** X7. The migration creates no record, deletes none and moves none:
    whatever the entry and whatever the outcome, the device registry keeps
    its devices in place with their ids and config entries, the entity
    registry keeps its entities in place with their entity ids and owners,
    and the entry keeps its entry_id and its data. *)
Theorem X7_records_kept (DOMAIN : string) (st : State) :
  let st' := (async_migrate_entry DOMAIN st).2 in
  Forall2
    (λ d d', DeviceEntry.id d' = DeviceEntry.id d
             ∧ DeviceEntry.config_entries d' = DeviceEntry.config_entries d)
    (device_registry (hass st)) (device_registry (hass st'))
  ∧ Forall2
      (λ e e', RegistryEntry.entity_id e' = RegistryEntry.entity_id e
               ∧ RegistryEntry.config_entry_id e'
                 = RegistryEntry.config_entry_id e)
      (entity_registry (hass st)) (entity_registry (hass st'))
  ∧ ConfigEntry.entry_id (config_entry st')
    = ConfigEntry.entry_id (config_entry st)
  ∧ ConfigEntry.data (config_entry st') = ConfigEntry.data (config_entry st).
Proof.
  cbn zeta.
  assert (Hsame : ∀ o,
    async_migrate_entry DOMAIN st = (o, st) →
    Forall2
      (λ d d', DeviceEntry.id d' = DeviceEntry.id d
               ∧ DeviceEntry.config_entries d' = DeviceEntry.config_entries d)
      (device_registry (hass st))
      (device_registry (hass (async_migrate_entry DOMAIN st).2))
    ∧ Forall2
        (λ e e', RegistryEntry.entity_id e' = RegistryEntry.entity_id e
                 ∧ RegistryEntry.config_entry_id e'
                   = RegistryEntry.config_entry_id e)
        (entity_registry (hass st))
        (entity_registry (hass (async_migrate_entry DOMAIN st).2))
    ∧ ConfigEntry.entry_id (config_entry (async_migrate_entry DOMAIN st).2)
      = ConfigEntry.entry_id (config_entry st)
    ∧ ConfigEntry.data (config_entry (async_migrate_entry DOMAIN st).2)
      = ConfigEntry.data (config_entry st)).
  { intros o ->. cbn [snd].
    split; [apply Forall_Forall2_diag, Forall_forall; by intros d _|].
    split; [apply Forall_Forall2_diag, Forall_forall; by intros e _|done]. }
  destruct (decide (ConfigEntry.version (config_entry st) = 1))
    as [Hversion|Hversion];
    [|by apply (Hsame _ (migrate_entry_other_version DOMAIN st Hversion))].
  destruct (truthy (ConfigEntry.unique_id (config_entry st))) eqn:Htruthy;
    [|by apply (Hsame _ (migrate_entry_assert_fails DOMAIN st Hversion
                           Htruthy))].
  rewrite migrate_entry_run by done. cbn zeta. cbn [snd].
  unfold with_entity_registry.
  cbn [hass device_registry entity_registry config_entry].
  rewrite step_b_state_config_entry. split; [|split; [|done]].
  - apply (step_b_state_keeps DOMAIN _ (step_a_state st)).
  - apply migrated_entities_keeps.
Qed.

(** X8. Step B never raises and writes nothing but device identifiers: the
    entry, the config-entry store and the entity registry are as before,
    every device keeps its place, id and config entries; and called with
    no legacy id at all ([None]) it changes nothing. *)
Theorem X8_step_b_frame (DOMAIN : string) (old_unique_id : option string)
    (st : State) :
  (∃ st',
      _async_migrate_device_identifiers DOMAIN old_unique_id st
      = (Returned tt, st')
      ∧ config_entry st' = config_entry st
      ∧ config_entries (hass st') = config_entries (hass st)
      ∧ entity_registry (hass st') = entity_registry (hass st)
      ∧ Forall2
          (λ d d', DeviceEntry.id d' = DeviceEntry.id d
                   ∧ DeviceEntry.config_entries d'
                     = DeviceEntry.config_entries d)
          (device_registry (hass st)) (device_registry (hass st')))
  ∧ _async_migrate_device_identifiers DOMAIN None st = (Returned tt, st).
Proof.
  split.
  - exists (step_b_state DOMAIN old_unique_id st).
    split; [apply migrate_device_identifiers_run|].
    split; [apply step_b_state_config_entry|].
    split; [apply step_b_state_config_entries|].
    split; [apply step_b_state_entities|apply step_b_state_keeps].
  - rewrite migrate_device_identifiers_run. unfold step_b_state.
    rewrite first_legacy_device_none; [done|].
    intros d _ _ Hlegacy.
    apply has_legacy_identifier_elem_of in Hlegacy as (i & _ & Hnone).
    discriminate Hnone.
Qed.

Lemma migrated_entities_foreign (config_entry_id : string)
    (entries : list RegistryEntry.t) (i : nat) (e : RegistryEntry.t) :
  entries !! i = Some e →
  RegistryEntry.config_entry_id e ≠ config_entry_id →
  (migrated_entities config_entry_id entries).2 !! i = Some e.
Proof.
  intros Hlookup Hforeign.
  assert (Hmapped :
    (migrate_owned config_entry_id <$> entries) !! i = Some e).
  { rewrite list_lookup_fmap, Hlookup. cbn. unfold migrate_owned.
    by rewrite decide_False. }
  destruct (first_malformed config_entry_id entries)
    as [Hall|(before & bad & after & -> & Hbefore & Hbad)].
  - by rewrite migrated_entities_all.
  - rewrite migrated_entities_split by done. cbn [snd].
    destruct (decide (i < length before)%nat) as [Hi|Hi].
    + rewrite lookup_app_l by by rewrite length_fmap.
      rewrite fmap_app, lookup_app_l in Hmapped by by rewrite length_fmap.
      done.
    + rewrite lookup_app_r by (rewrite length_fmap; lia).
      rewrite lookup_app_r in Hlookup by lia.
      by rewrite length_fmap.
Qed.

Lemma update_identifiers_foreign (d d0 : DeviceEntry.t)
    (new_identifiers : gset (string * string))
    (registry : list DeviceEntry.t) (i : nat) :
  NoDup (DeviceEntry.id <$> registry) →
  d ∈ registry → registry !! i = Some d0 → d0 ≠ d →
  update_identifiers (DeviceEntry.id d) new_identifiers registry !! i
  = Some d0.
Proof.
  intros Hnodup Hin Hlookup Hne. unfold update_identifiers.
  rewrite list_lookup_fmap, Hlookup. cbn.
  rewrite decide_False; [done|]. intros Hid.
  apply list_elem_of_lookup in Hin as [j Hj].
  assert (i = j) as ->.
  { apply (NoDup_lookup (DeviceEntry.id <$> registry) i j (DeviceEntry.id d)).
    - done.
    - by rewrite list_lookup_fmap, Hlookup, <- Hid.
    - by rewrite list_lookup_fmap, Hj. }
  congruence.
Qed.

Lemma first_legacy_device_Some (old : option string)
    (config_entry_id : string) (registry : list DeviceEntry.t)
    (d : DeviceEntry.t) :
  first_legacy_device old config_entry_id registry = Some d →
  d ∈ registry ∧ config_entry_id ∈ DeviceEntry.config_entries d
  ∧ has_legacy_identifier old d.
Proof.
  unfold first_legacy_device. intros Hfind.
  destruct (list_find _ _) as [[i d']|] eqn:Hlist; [|done].
  injection Hfind as ->.
  apply list_find_Some in Hlist as (Hlookup & Hlegacy & _).
  apply list_elem_of_lookup_2, list_elem_of_filter in Hlookup as [? ?].
  done.
Qed.

(** X17. The migration leaves the records of others alone: whatever the
    entry and the outcome, an entity owned by another config entry and a
    device not associated with the entry are, after the call, what they
    were before. Device ids are distinct, as the keys of the registry
    are. *)
Theorem X17_foreign_records_untouched (DOMAIN : string) (st : State) :
  NoDup (DeviceEntry.id <$> device_registry (hass st)) →
  let entry_id := ConfigEntry.entry_id (config_entry st) in
  let st' := (async_migrate_entry DOMAIN st).2 in
  (∀ i d, device_registry (hass st) !! i = Some d →
          entry_id ∉ DeviceEntry.config_entries d →
          device_registry (hass st') !! i = Some d)
  ∧ (∀ i e, entity_registry (hass st) !! i = Some e →
            RegistryEntry.config_entry_id e ≠ entry_id →
            entity_registry (hass st') !! i = Some e).
Proof.
  intros Hnodup entry_id. cbn zeta.
  destruct (decide (ConfigEntry.version (config_entry st) = 1))
    as [Hversion|Hversion];
    [|by rewrite migrate_entry_other_version].
  destruct (truthy (ConfigEntry.unique_id (config_entry st))) eqn:Htruthy;
    [|by rewrite migrate_entry_assert_fails].
  rewrite migrate_entry_run by done. cbn zeta. cbn [snd].
  unfold with_entity_registry.
  cbn [hass device_registry entity_registry]. split.
  - intros i d Hlookup Hforeign. unfold step_b_state.
    cbn [step_a_state config_entry hass device_registry
         migrated_config_entry ConfigEntry.entry_id].
    fold entry_id.
    destruct (first_legacy_device _ entry_id (device_registry (hass st)))
      as [d1|] eqn:Hfirst; [|done].
    apply first_legacy_device_Some in Hfirst as (Hin & Hassoc & _).
    unfold migrated_device_state, with_device_registry.
    cbn [hass device_registry config_entry step_a_state].
    apply update_identifiers_foreign; [done..|]. by intros ->.
  - intros i e Hlookup Hforeign. by apply migrated_entities_foreign.
Qed.

Lemma shared_registry_sample_NoDup :
  NoDup (DeviceEntry.id <$> device_registry (hass shared_registry_sample)).
Proof.
  cbn. apply NoDup_cons. split; [|apply NoDup_singleton].
  intros Hin. apply list_elem_of_singleton in Hin. discriminate Hin.
Qed.

Lemma X17_foreign_records_untouched_witness :
  let st' := (async_migrate_entry sample_domain shared_registry_sample).2 in
  NoDup (DeviceEntry.id <$> device_registry (hass shared_registry_sample))
  ∧ device_registry (hass st') !! 0%nat
    = Some (DeviceEntry.mk "device2" {[ "E2" ]}
              {[ (sample_domain, "abc123") ]})
  ∧ entity_registry (hass st') !! 1%nat
    = Some (RegistryEntry.mk "sensor.other" "abc123-25565-Latency Time"
              "E2").
Proof.
  cbn zeta. split; [exact shared_registry_sample_NoDup|].
  pose proof (X17_foreign_records_untouched sample_domain
                shared_registry_sample shared_registry_sample_NoDup)
    as [Hdevices Hentities].
  split.
  - apply Hdevices; [reflexivity|]. cbn. set_solver.
  - apply Hentities; [reflexivity|]. cbn. discriminate.
Defined.

(** * Setup and unload *)

Section LifecycleFacts.

Context `{Collaborators}.
Variable DOMAIN : string.

Lemma lifecycle_bind {A B : Type} (m : L A) (f : A → L B) (rt : Runtime) :
  (m ≫= f) rt
  = match m rt with
    | (Done a, rt') => f a rt'
    | (Failed e, rt') => (Failed e, rt')
    end.
Proof. reflexivity. Qed.

Lemma dict_getitem_Some {V : Type} (d : gmap string V) (key : string)
    (rt : Runtime) :
  is_Some (d !! key) → ∃ v, dict_getitem d key rt = (Done v, rt).
Proof. intros [v Hv]. exists v. unfold dict_getitem. by rewrite Hv. Qed.

(** The two statements that store the coordinator, then the rest. *)
Lemma store_coordinator_then {B : Type} (key : string)
    (coordinator : Coordinator) (rest : L B) (rt : Runtime) :
  (hass_data_setdefault DOMAIN;;
   domain_data_setitem DOMAIN key coordinator;;
   rest) rt
  = rest
      (mkRuntime
         (<[DOMAIN := <[key := coordinator]>
                        (default ∅ (hass_data rt !! DOMAIN))]>
            (hass_data rt))
         (calls rt)).
Proof.
  rewrite !lifecycle_bind. unfold hass_data_setdefault, domain_data_setitem.
  apply (f_equal rest).
  destruct (hass_data rt !! DOMAIN) as [domain_data|] eqn:Hdomain;
    cbn [hass_data calls default]; apply (f_equal (λ d, mkRuntime d (calls rt))).
  - apply map_eq. intros k. destruct (decide (k = DOMAIN)) as [->|Hk].
    + by rewrite lookup_alter_eq, lookup_insert_eq, Hdomain.
    + by rewrite lookup_alter_ne, lookup_insert_ne.
  - apply map_eq. intros k. destruct (decide (k = DOMAIN)) as [->|Hk].
    + by rewrite lookup_alter_eq, !lookup_insert_eq.
    + by rewrite lookup_alter_ne, !lookup_insert_ne.
Qed.

(** Setup of an entry whose data has both keys, by the answers of the
    host. *)
Lemma setup_entry_run (entry : ConfigEntry.t) (rt : Runtime) :
  is_Some (ConfigEntry.data entry !! CONF_NAME) →
  is_Some (ConfigEntry.data entry !! CONF_HOST) →
  let config_entry_id := ConfigEntry.entry_id entry in
  let coordinator :=
    MinecraftServerCoordinator config_entry_id (ConfigEntry.data entry) in
  let refreshed :=
    mkRuntime (hass_data rt) (calls rt ++ [first_refresh_call coordinator]) in
  let stored :=
    mkRuntime
      (<[DOMAIN := <[config_entry_id := coordinator]>
                     (default ∅ (hass_data rt !! DOMAIN))]>
         (hass_data rt))
      (calls rt ++ [first_refresh_call coordinator]
       ++ [forward_entry_setups_call entry PLATFORMS]) in
  async_setup_entry DOMAIN entry rt
  = match async_config_entry_first_refresh coordinator with
    | Some e => (Failed (Propagated e), refreshed)
    | None =>
        match async_forward_entry_setups entry PLATFORMS with
        | Some e => (Failed (Propagated e), stored)
        | None => (Done true, stored)
        end
    end.
Proof.
  intros Hname Hhost config_entry_id coordinator refreshed stored.
  unfold async_setup_entry. fold config_entry_id. fold coordinator.
  destruct (dict_getitem_Some _ _ rt Hname) as [name Hname'].
  destruct (dict_getitem_Some _ _ rt Hhost) as [host_ Hhost'].
  rewrite lifecycle_bind, Hname', lifecycle_bind, Hhost', lifecycle_bind.
  unfold host at 1.
  destruct (async_config_entry_first_refresh coordinator) as [e|];
    cbn [completes]; [reflexivity|].
  rewrite store_coordinator_then, lifecycle_bind. unfold host.
  cbn [hass_data calls]. subst stored. rewrite <- (assoc_L (++)).
  by destruct (async_forward_entry_setups entry PLATFORMS).
Qed.

Lemma unload_entry_run (config_entry : ConfigEntry.t) (rt : Runtime) :
  let config_entry_id := ConfigEntry.entry_id config_entry in
  let unloaded :=
    mkRuntime (hass_data rt)
      (calls rt ++ [unload_platforms_call config_entry PLATFORMS]) in
  async_unload_entry DOMAIN config_entry rt
  = match async_unload_platforms config_entry PLATFORMS with
    | inl e => (Failed (Propagated e), unloaded)
    | inr unload_ok =>
        match hass_data rt !! DOMAIN with
        | None => (Failed (KeyError DOMAIN), unloaded)
        | Some domain_data =>
            match domain_data !! config_entry_id with
            | None => (Failed (KeyError config_entry_id), unloaded)
            | Some _ =>
                (Done unload_ok,
                 mkRuntime
                   (<[DOMAIN := delete config_entry_id domain_data]>
                      (hass_data rt))
                   (calls rt
                    ++ [unload_platforms_call config_entry PLATFORMS]))
            end
        end
    end.
Proof.
  intros config_entry_id unloaded. unfold async_unload_entry.
  fold config_entry_id. rewrite lifecycle_bind. unfold host.
  destruct (async_unload_platforms config_entry PLATFORMS) as [e|unload_ok];
    [reflexivity|].
  rewrite lifecycle_bind. unfold domain_data_pop. cbn [hass_data calls].
  destruct (hass_data rt !! DOMAIN) as [domain_data|]; [|reflexivity].
  by destruct (domain_data !! config_entry_id).
Qed.

(** A setup in which both host calls complete. *)
Lemma setup_entry_completes (entry : ConfigEntry.t)
    (rt : Runtime) :
  is_Some (ConfigEntry.data entry !! CONF_NAME) →
  is_Some (ConfigEntry.data entry !! CONF_HOST) →
  async_config_entry_first_refresh
    (MinecraftServerCoordinator (ConfigEntry.entry_id entry)
       (ConfigEntry.data entry)) = None →
  async_forward_entry_setups entry PLATFORMS = None →
  ∃ rt1,
    async_setup_entry DOMAIN entry rt = (Done true, rt1)
    ∧ hass_data rt1
      = <[DOMAIN := <[ConfigEntry.entry_id entry :=
                        MinecraftServerCoordinator
                          (ConfigEntry.entry_id entry)
                          (ConfigEntry.data entry)]>
                      (default ∅ (hass_data rt !! DOMAIN))]>
          (hass_data rt)
    ∧ hass_data rt1 !! DOMAIN
      = Some (<[ConfigEntry.entry_id entry :=
                  MinecraftServerCoordinator (ConfigEntry.entry_id entry)
                    (ConfigEntry.data entry)]>
                (default ∅ (hass_data rt !! DOMAIN))).
Proof.
  intros Hname Hhost Hrefresh Hforward.
  rewrite setup_entry_run by done. cbn zeta. rewrite Hrefresh, Hforward.
  eexists. split; [reflexivity|]. cbn [hass_data].
  split; [reflexivity|apply lookup_insert_eq].
Qed.

(** X9. Setup reads [entry.data[CONF_NAME]] and [entry.data[CONF_HOST]]
    before anything else: when the name is missing it raises
    [KeyError(CONF_NAME)], when only the host is missing
    [KeyError(CONF_HOST)], in both cases with no call made into the host
    and [hass.data] untouched. *)
Theorem X9_setup_needs_name_and_host (entry : ConfigEntry.t) (rt : Runtime) :
  (ConfigEntry.data entry !! CONF_NAME = None →
   async_setup_entry DOMAIN entry rt = (Failed (KeyError CONF_NAME), rt))
  ∧ (is_Some (ConfigEntry.data entry !! CONF_NAME) →
     ConfigEntry.data entry !! CONF_HOST = None →
     async_setup_entry DOMAIN entry rt = (Failed (KeyError CONF_HOST), rt)).
Proof.
  split.
  - intros Hname. unfold async_setup_entry.
    rewrite lifecycle_bind. unfold dict_getitem at 1. by rewrite Hname.
  - intros Hname Hhost. unfold async_setup_entry.
    destruct (dict_getitem_Some _ _ rt Hname) as [name Hname'].
    rewrite lifecycle_bind, Hname', lifecycle_bind.
    unfold dict_getitem at 1. by rewrite Hhost.
Qed.

(** X10. A setup in which both host calls complete returns True and leaves
    the coordinator of the entry in [hass.data[DOMAIN]] under the entry id,
    beside the coordinators that were there, the other domains of
    [hass.data] untouched; it makes two calls into the host, the first
    refresh of that coordinator and then the forwarding of [PLATFORMS]. *)
Theorem X10_setup_stores_coordinator (entry : ConfigEntry.t) (rt : Runtime) :
  is_Some (ConfigEntry.data entry !! CONF_NAME) →
  is_Some (ConfigEntry.data entry !! CONF_HOST) →
  let config_entry_id := ConfigEntry.entry_id entry in
  let coordinator :=
    MinecraftServerCoordinator config_entry_id (ConfigEntry.data entry) in
  async_config_entry_first_refresh coordinator = None →
  async_forward_entry_setups entry PLATFORMS = None →
  ∃ rt',
    async_setup_entry DOMAIN entry rt = (Done true, rt')
    ∧ hass_data rt' !! DOMAIN
      = Some (<[config_entry_id := coordinator]>
                (default ∅ (hass_data rt !! DOMAIN)))
    ∧ (∀ other, other ≠ DOMAIN →
         hass_data rt' !! other = hass_data rt !! other)
    ∧ calls rt'
      = calls rt ++ [first_refresh_call coordinator;
                     forward_entry_setups_call entry PLATFORMS].
Proof.
  intros Hname Hhost config_entry_id coordinator Hrefresh Hforward.
  rewrite setup_entry_run by done. cbn zeta.
  fold config_entry_id. fold coordinator. rewrite Hrefresh, Hforward.
  eexists. split; [reflexivity|]. cbn [hass_data calls].
  split; [apply lookup_insert_eq|].
  split; [|reflexivity].
  intros other Hother. by rewrite lookup_insert_ne.
Qed.

(** X11. When the first refresh of the coordinator raises, setup passes
    the exception on with [hass.data] as it was: the coordinator is not
    stored and the platforms are not forwarded. *)
Theorem X11_setup_refresh_failure (entry : ConfigEntry.t) (rt : Runtime)
    (e : HostError) :
  is_Some (ConfigEntry.data entry !! CONF_NAME) →
  is_Some (ConfigEntry.data entry !! CONF_HOST) →
  let coordinator :=
    MinecraftServerCoordinator (ConfigEntry.entry_id entry)
      (ConfigEntry.data entry) in
  async_config_entry_first_refresh coordinator = Some e →
  async_setup_entry DOMAIN entry rt
  = (Failed (Propagated e),
     mkRuntime (hass_data rt) (calls rt ++ [first_refresh_call coordinator])).
Proof.
  intros Hname Hhost coordinator Hrefresh.
  rewrite setup_entry_run by done. cbn zeta. fold coordinator.
  by rewrite Hrefresh.
Qed.

(** X12. When forwarding the platforms raises, setup passes the exception
    on, but the coordinator is already stored and stays in
    [hass.data[DOMAIN]] under the entry id. *)
Theorem X12_setup_forward_failure (entry : ConfigEntry.t) (rt : Runtime)
    (e : HostError) :
  is_Some (ConfigEntry.data entry !! CONF_NAME) →
  is_Some (ConfigEntry.data entry !! CONF_HOST) →
  let config_entry_id := ConfigEntry.entry_id entry in
  let coordinator :=
    MinecraftServerCoordinator config_entry_id (ConfigEntry.data entry) in
  async_config_entry_first_refresh coordinator = None →
  async_forward_entry_setups entry PLATFORMS = Some e →
  ∃ rt',
    async_setup_entry DOMAIN entry rt = (Failed (Propagated e), rt')
    ∧ hass_data rt' !! DOMAIN
      = Some (<[config_entry_id := coordinator]>
                (default ∅ (hass_data rt !! DOMAIN))).
Proof.
  intros Hname Hhost config_entry_id coordinator Hrefresh Hforward.
  rewrite setup_entry_run by done. cbn zeta.
  fold config_entry_id. fold coordinator. rewrite Hrefresh, Hforward.
  eexists. split; [reflexivity|]. cbn [hass_data]. apply lookup_insert_eq.
Qed.

(** X13. Unload removes the coordinator of the entry from
    [hass.data[DOMAIN]] whatever the platforms answered: also when
    [async_unload_platforms] returned False the coordinator is popped, and
    that answer is the result. The other coordinators stay. *)
Theorem X13_unload_pops_coordinator (config_entry : ConfigEntry.t)
    (rt : Runtime) (domain_data : gmap string Coordinator)
    (unload_ok : bool) :
  hass_data rt !! DOMAIN = Some domain_data →
  is_Some (domain_data !! ConfigEntry.entry_id config_entry) →
  async_unload_platforms config_entry PLATFORMS = inr unload_ok →
  async_unload_entry DOMAIN config_entry rt
  = (Done unload_ok,
     mkRuntime
       (<[DOMAIN := delete (ConfigEntry.entry_id config_entry) domain_data]>
          (hass_data rt))
       (calls rt ++ [unload_platforms_call config_entry PLATFORMS])).
Proof.
  intros Hdomain [coordinator Hstored] Hunload.
  rewrite unload_entry_run. cbn zeta.
  by rewrite Hunload, Hdomain, Hstored.
Qed.

(** X14. Unload of an entry that has no coordinator stored raises
    [KeyError], of [DOMAIN] when [hass.data] has no dict for the domain,
    of the entry id otherwise, after the platforms have been unloaded and
    with [hass.data] as it was. *)
Theorem X14_unload_without_coordinator (config_entry : ConfigEntry.t)
    (rt : Runtime) (unload_ok : bool) :
  async_unload_platforms config_entry PLATFORMS = inr unload_ok →
  let unloaded :=
    mkRuntime (hass_data rt)
      (calls rt ++ [unload_platforms_call config_entry PLATFORMS]) in
  (hass_data rt !! DOMAIN = None →
   async_unload_entry DOMAIN config_entry rt
   = (Failed (KeyError DOMAIN), unloaded))
  ∧ (∀ domain_data,
       hass_data rt !! DOMAIN = Some domain_data →
       domain_data !! ConfigEntry.entry_id config_entry = None →
       async_unload_entry DOMAIN config_entry rt
       = (Failed (KeyError (ConfigEntry.entry_id config_entry)), unloaded)).
Proof.
  intros Hunload unloaded. split.
  - intros Hdomain. rewrite unload_entry_run. cbn zeta.
    by rewrite Hunload, Hdomain.
  - intros domain_data Hdomain Hstored. rewrite unload_entry_run. cbn zeta.
    by rewrite Hunload, Hdomain, Hstored.
Qed.

(** X15. When unloading the platforms raises, unload passes the exception
    on and the coordinator is not removed: [hass.data] is as it was. *)
Theorem X15_unload_platform_failure (config_entry : ConfigEntry.t)
    (rt : Runtime) (e : HostError) :
  async_unload_platforms config_entry PLATFORMS = inl e →
  async_unload_entry DOMAIN config_entry rt
  = (Failed (Propagated e),
     mkRuntime (hass_data rt)
       (calls rt ++ [unload_platforms_call config_entry PLATFORMS])).
Proof.
  intros Hunload. rewrite unload_entry_run. cbn zeta. by rewrite Hunload.
Qed.

(** X16. Setup followed by unload: the coordinator is gone again, and
    [hass.data] is back to what it was when it had a dict for the domain
    without this entry; when it had no dict for the domain, an empty one
    stays behind under [DOMAIN]. *)
Theorem X16_setup_then_unload (entry : ConfigEntry.t) (rt : Runtime)
    (unload_ok : bool) :
  is_Some (ConfigEntry.data entry !! CONF_NAME) →
  is_Some (ConfigEntry.data entry !! CONF_HOST) →
  async_config_entry_first_refresh
    (MinecraftServerCoordinator (ConfigEntry.entry_id entry)
       (ConfigEntry.data entry)) = None →
  async_forward_entry_setups entry PLATFORMS = None →
  async_unload_platforms entry PLATFORMS = inr unload_ok →
  ∃ rt1 rt2,
    async_setup_entry DOMAIN entry rt = (Done true, rt1)
    ∧ async_unload_entry DOMAIN entry rt1 = (Done unload_ok, rt2)
    ∧ (∀ domain_data,
         hass_data rt !! DOMAIN = Some domain_data →
         hass_data rt2
         = <[DOMAIN := delete (ConfigEntry.entry_id entry) domain_data]>
             (hass_data rt))
    ∧ (∀ domain_data,
         hass_data rt !! DOMAIN = Some domain_data →
         domain_data !! ConfigEntry.entry_id entry = None →
         hass_data rt2 = hass_data rt)
    ∧ (hass_data rt !! DOMAIN = None →
       hass_data rt2 = <[DOMAIN := ∅]> (hass_data rt)).
Proof.
  intros Hname Hhost Hrefresh Hforward Hunload.
  destruct (setup_entry_completes entry rt Hname Hhost Hrefresh
              Hforward) as (rt1 & Hsetup & Hdata1 & Hstored).
  exists rt1. eexists. split; [exact Hsetup|].
  rewrite unload_entry_run. cbn zeta.
  rewrite Hunload, Hstored, lookup_insert_eq.
  split; [reflexivity|]. cbn [hass_data].
  rewrite Hdata1, insert_insert_eq, delete_insert_eq.
  split; [|split].
  - intros domain_data Hdomain. by rewrite Hdomain.
  - intros domain_data Hdomain Hfree. rewrite Hdomain. cbn [default].
    rewrite delete_id by done. by apply insert_id.
  - intros Hdomain. rewrite Hdomain. cbn [default]. by rewrite delete_empty.
Qed.

End LifecycleFacts.

Lemma server_entry_has_name :
  is_Some (ConfigEntry.data server_entry !! "name").
Proof. exists "My Server". reflexivity. Qed.

Lemma server_entry_has_host :
  is_Some (ConfigEntry.data server_entry !! "host").
Proof. exists "mc.local". reflexivity. Qed.

Lemma X10_setup_stores_coordinator_witness :
  let C := sample_collaborators None None (inr true) in
  is_Some (ConfigEntry.data server_entry !! "name")
  ∧ is_Some (ConfigEntry.data server_entry !! "host")
  ∧ ∃ rt',
      @async_setup_entry C sample_domain server_entry (empty_runtime C)
      = (Done true, rt')
      ∧ hass_data rt' !! sample_domain
        = Some (<["E1" := ("E1", ConfigEntry.data server_entry)]> ∅).
Proof.
  cbn zeta. split; [exact server_entry_has_name|].
  split; [exact server_entry_has_host|].
  destruct (@X10_setup_stores_coordinator
              (sample_collaborators None None (inr true)) sample_domain
              server_entry (empty_runtime _) server_entry_has_name
              server_entry_has_host eq_refl eq_refl)
    as (rt' & Hrun & Hdata & _).
  exists rt'. split; [exact Hrun|exact Hdata].
Defined.

Lemma X11_setup_refresh_failure_witness :
  let C := sample_collaborators (Some "ConfigEntryNotReady") None (inr true) in
  is_Some (ConfigEntry.data server_entry !! "name")
  ∧ is_Some (ConfigEntry.data server_entry !! "host")
  ∧ @async_setup_entry C sample_domain server_entry (empty_runtime C)
    = (Failed (Propagated "ConfigEntryNotReady"),
       @mkRuntime C ∅
         [first_refresh_call ("E1", ConfigEntry.data server_entry)]).
Proof.
  cbn zeta. split; [exact server_entry_has_name|].
  split; [exact server_entry_has_host|].
  exact (@X11_setup_refresh_failure
           (sample_collaborators (Some "ConfigEntryNotReady") None
              (inr true))
           sample_domain server_entry (empty_runtime _)
           "ConfigEntryNotReady" server_entry_has_name
           server_entry_has_host eq_refl).
Defined.

Lemma X12_setup_forward_failure_witness :
  let C := sample_collaborators None (Some "platform error") (inr true) in
  is_Some (ConfigEntry.data server_entry !! "name")
  ∧ is_Some (ConfigEntry.data server_entry !! "host")
  ∧ ∃ rt',
      @async_setup_entry C sample_domain server_entry (empty_runtime C)
      = (Failed (Propagated "platform error"), rt')
      ∧ hass_data rt' !! sample_domain
        = Some (<["E1" := ("E1", ConfigEntry.data server_entry)]> ∅).
Proof.
  cbn zeta. split; [exact server_entry_has_name|].
  split; [exact server_entry_has_host|].
  exact (@X12_setup_forward_failure
           (sample_collaborators None (Some "platform error") (inr true))
           sample_domain server_entry (empty_runtime _) "platform error"
           server_entry_has_name server_entry_has_host eq_refl eq_refl).
Defined.

Lemma X13_unload_pops_coordinator_witness :
  let C := sample_collaborators None None (inr false) in
  hass_data (stored_runtime None None (inr false)) !! sample_domain
  = Some {[ "E1" := ("E1", ConfigEntry.data server_entry) ]}
  ∧ @async_unload_entry C sample_domain server_entry
      (stored_runtime None None (inr false))
    = (Done false,
       @mkRuntime C
         (<[sample_domain :=
              delete "E1" {[ "E1" := ("E1", ConfigEntry.data server_entry) ]}]>
            (hass_data (stored_runtime None None (inr false))))
         [unload_platforms_call server_entry PLATFORMS]).
Proof.
  cbn zeta.
  assert (Hdomain :
    hass_data (stored_runtime None None (inr false)) !! sample_domain
    = Some {[ "E1" := ("E1", ConfigEntry.data server_entry) ]})
    by apply lookup_singleton_eq.
  split; [exact Hdomain|].
  refine (@X13_unload_pops_coordinator
            (sample_collaborators None None (inr false)) sample_domain
            server_entry (stored_runtime None None (inr false)) _ false
            Hdomain _ eq_refl).
  eexists. apply lookup_singleton_eq.
Defined.

Lemma X14_unload_without_coordinator_witness :
  let C := sample_collaborators None None (inr true) in
  @async_unload_platforms C server_entry PLATFORMS = inr true
  ∧ @async_unload_entry C sample_domain server_entry (empty_runtime C)
    = (Failed (KeyError sample_domain),
       @mkRuntime C ∅ [unload_platforms_call server_entry PLATFORMS]).
Proof.
  cbn zeta. split; [reflexivity|].
  refine (proj1 (@X14_unload_without_coordinator
                   (sample_collaborators None None (inr true)) sample_domain
                   server_entry (empty_runtime _) true eq_refl) _).
  apply lookup_empty.
Defined.

Lemma X15_unload_platform_failure_witness :
  let C := sample_collaborators None None (inl "unload error") in
  @async_unload_platforms C server_entry PLATFORMS = inl "unload error"
  ∧ @async_unload_entry C sample_domain server_entry
      (stored_runtime None None (inl "unload error"))
    = (Failed (Propagated "unload error"),
       @mkRuntime C
         (hass_data (stored_runtime None None (inl "unload error")))
         [unload_platforms_call server_entry PLATFORMS]).
Proof.
  cbn zeta. split; [reflexivity|].
  exact (@X15_unload_platform_failure
           (sample_collaborators None None (inl "unload error"))
           sample_domain server_entry
           (stored_runtime None None (inl "unload error")) "unload error"
           eq_refl).
Defined.

Lemma X16_setup_then_unload_witness :
  let C := sample_collaborators None None (inr true) in
  is_Some (ConfigEntry.data server_entry !! "name")
  ∧ is_Some (ConfigEntry.data server_entry !! "host")
  ∧ ∃ rt1 rt2,
      @async_setup_entry C sample_domain server_entry (empty_runtime C)
      = (Done true, rt1)
      ∧ @async_unload_entry C sample_domain server_entry rt1
        = (Done true, rt2)
      ∧ hass_data rt2 = <[sample_domain := ∅]> ∅.
Proof.
  cbn zeta. split; [exact server_entry_has_name|].
  split; [exact server_entry_has_host|].
  destruct (@X16_setup_then_unload
              (sample_collaborators None None (inr true)) sample_domain
              server_entry (empty_runtime _) true server_entry_has_name
              server_entry_has_host eq_refl eq_refl eq_refl)
    as (rt1 & rt2 & Hsetup & Hunload & _ & _ & Hempty).
  exists rt1, rt2. split; [exact Hsetup|]. split; [exact Hunload|].
  apply Hempty. apply lookup_empty.
Defined.
